(** * pathext: the extension registry and the classifiers of [PathExt]

    A shallow embedding of [pathext/core.py]: the class-level tables
    [_ext2mime_map], [_mime2ext_map] and [_decompress_cmd_map], the loader
    [_load], the resolvers [exts], [extension] and [mime], and the
    classifiers [is_binary], [is_compressed], [is_video], [is_audio] and
    [is_font].  Python dictionaries are finite maps over strings, Python
    exceptions are an error monad, and the class attributes mutated by
    [_load] are threaded as an explicit state. *)

From Stdlib Require Import String Ascii List Bool Arith Lia.
From stdpp Require Import base option list gmap strings fin_maps.

Local Open Scope list_scope.

(** ** Python strings *)

Module PyStr.

(** [bool(s)]: a string is truthy when it is not empty. *)
Definition truthy (s : string) : bool :=
  match s with
  | EmptyString => false
  | String _ _ => true
  end.

(** [s.startswith(p)] *)
Definition startswith (p s : string) : bool := String.prefix p s.

(** [s.split(sep)] for a one-character separator: every occurrence cuts,
    and the result always has at least one field. *)
Fixpoint split (sep : ascii) (s : string) : list string :=
  match s with
  | EmptyString => [EmptyString]
  | String c s' =>
      if Ascii.eqb c sep then EmptyString :: split sep s'
      else match split sep s' with
           | [] => [String c EmptyString]
           | f :: fs => String c f :: fs
           end
  end.

(** [s.lstrip(c)] for a one-character set. *)
Fixpoint lstrip (c : ascii) (s : string) : string :=
  match s with
  | EmptyString => EmptyString
  | String a s' => if Ascii.eqb a c then lstrip c s' else s
  end.

(** [s.rstrip(c)] for a one-character set. *)
Fixpoint rstrip (c : ascii) (s : string) : string :=
  match s with
  | EmptyString => EmptyString
  | String a s' =>
      match rstrip c s' with
      | EmptyString => if Ascii.eqb a c then EmptyString else String a EmptyString
      | r => String a r
      end
  end.

(** [s.strip(c)]: both ends. *)
Definition strip (c : ascii) (s : string) : string := rstrip c (lstrip c s).

(** [s.endswith(c)] for one character. *)
Fixpoint endswith (c : ascii) (s : string) : bool :=
  match s with
  | EmptyString => false
  | String a EmptyString => Ascii.eqb a c
  | String _ s' => endswith c s'
  end.

(** [x in s] for two strings: [x] occurs as a substring of [s]. *)
Fixpoint contains (x s : string) : bool :=
  String.prefix x s
  || match s with
     | EmptyString => false
     | String _ s' => contains x s'
     end.

(** [''.join(l)] *)
Definition join (l : list string) : string := String.concat EmptyString l.

(** [s.rfind(c)] for one character, [None] standing for [-1]. *)
Fixpoint rfind (c : ascii) (s : string) : option nat :=
  match s with
  | EmptyString => None
  | String a s' =>
      match rfind c s' with
      | Some i => Some (S i)
      | None => if Ascii.eqb a c then Some 0 else None
      end
  end.

(** [s[i:]] *)
Fixpoint slice_from (i : nat) (s : string) : string :=
  match i, s with
  | 0, _ => s
  | S i', String _ s' => slice_from i' s'
  | S _, EmptyString => EmptyString
  end.

(** [template.format(arg)] for a template with one [{}] placeholder: the
    first [{}] is replaced by [arg], the rest is copied. *)
Fixpoint format (template arg : string) : string :=
  match template with
  | String "{" (String "}" rest) => arg +:+ rest
  | String c rest => String c (format rest arg)
  | EmptyString => EmptyString
  end.

End PyStr.

(** ** Python lists *)

Module PyList.

(** [l[-2:]] *)
Definition last_two {A} (l : list A) : list A :=
  drop (length l - 2) l.

(** [x in l]: some element equals [x]. *)
Definition contains (x : string) (l : list string) : bool :=
  bool_decide (x ∈ l).

End PyList.

(** ** The slice of [pathlib] that [PathExt] inherits

    [PathExt] subclasses [type(Path())]; [name], [suffix] and [suffixes]
    are the inherited properties of [pathlib.PurePath]. *)

Record PathExt := mkPath {
  parent : string;   (* everything before the final component *)
  name : string;     (* the final component *)
}.

Module Pathlib.

(** [PurePath.suffixes]:
    [if name.endswith('.'): return []]
    [name = name.lstrip('.')]
    [return ['.' + suffix for suffix in name.split('.')[1:]]] *)
Definition suffixes (p : PathExt) : list string :=
  if PyStr.endswith "." (name p) then []
  else map (fun suffix => "." +:+ suffix)
           (tail (PyStr.split "." (PyStr.lstrip "." (name p)))).

(** [PurePath.suffix]:
    [i = name.rfind('.')]
    [if 0 < i < len(name) - 1: return name[i:] else: return ''] *)
Definition suffix (p : PathExt) : string :=
  match PyStr.rfind "." (name p) with
  | Some i =>
      if ((0 <? i) && (i <? String.length (name p) - 1))%nat
      then PyStr.slice_from i (name p)
      else EmptyString
  | None => EmptyString
  end.

End Pathlib.

(** ** Exceptions

    A Python call either returns a value or raises. *)

Inductive exn := ValueError | TypeError | PermissionError | FileNotFoundError.

Inductive result (A : Type) : Type :=
| Ok (a : A)
| Raise (e : exn).
Arguments Ok {A} a.
Arguments Raise {A} e.

Definition bind {A B} (c : result A) (k : A -> result B) : result B :=
  match c with
  | Ok a => k a
  | Raise e => Raise e
  end.

Notation "'let*' x ':=' c 'in' k" := (bind c (fun x => k))
  (at level 10, x name, c at level 100, k at level 200).

Definition raises {A} (c : result A) : Prop := exists e, c = Raise e.

(** ** Python dictionaries keyed by strings *)

Module PyDict.

(** [k in d] *)
Definition contains {V} (k : string) (d : gmap string V) : bool :=
  match d !! k with
  | Some _ => true
  | None => false
  end.

End PyDict.

(** ** The class attributes [_ext2mime_map] and [_mime2ext_map]

    Both start as [{}] in the class body and are mutated in place by
    [_load]; every [PathExt] object reads the same two dictionaries. *)

Record registry := mkRegistry {
  _ext2mime_map : gmap string (list string);
  _mime2ext_map : gmap string (list string);
}.

Definition class_body : registry := mkRegistry ∅ ∅.

(** A computation over the class attributes: it returns or raises, and
    leaves the attributes as mutated up to that point. *)
Definition cls_m (A : Type) : Type := registry -> result A * registry.

(** One iteration of the [for ln in lines] loop of [_load]. *)
Definition load_line (ln : string) : cls_m unit := fun cls =>
  if PyStr.truthy ln && negb (PyStr.startswith "#" ln) then
    match PyStr.split ":" ln with
    | [mime; ext] =>
        let ext := PyStr.strip "*" ext in
        let e2m :=
          match _ext2mime_map cls !! ext with
          | Some l =>
              if PyList.contains mime l then _ext2mime_map cls
              else <[ext := l ++ [mime]]> (_ext2mime_map cls)
          | None => <[ext := [mime]]> (_ext2mime_map cls)
          end in
        let m2e :=
          match _mime2ext_map cls !! mime with
          | Some l => <[mime := l ++ [ext]]> (_mime2ext_map cls)
          | None => <[mime := [ext]]> (_mime2ext_map cls)
          end in
        (Ok tt, mkRegistry e2m m2e)
    | _ => (Raise ValueError, cls)   (* mime, ext = ln.split(':') *)
    end
  else (Ok tt, cls).

(** The [for] loop: an exception leaves the loop with the attributes as
    the earlier lines left them. *)
Fixpoint load_lines (lines : list string) : cls_m unit := fun cls =>
  match lines with
  | [] => (Ok tt, cls)
  | ln :: rest =>
      match load_line ln cls with
      | (Ok _, cls') => load_lines rest cls'
      | (Raise e, cls') => (Raise e, cls')
      end
  end.

(** [PathExt._load].  [globs] is what [/usr/share/mime/globs] holds:
    [None] when it is not a regular file, else the lines of
    [read_text().splitlines()].  The returned pair is the two class
    attributes themselves. *)
Definition _load (globs : option (list string)) : cls_m registry := fun cls =>
  match globs with
  | Some lines =>
      match load_lines lines cls with
      | (Ok _, cls') => (Ok cls', cls')
      | (Raise e, cls') => (Raise e, cls')
      end
  | None => (Ok cls, cls)
  end.

(** [PathExt.__new__]: every construction runs [_load]. *)
Definition __new__ (globs : option (list string)) (path : PathExt)
  : cls_m PathExt := fun cls =>
  match _load globs cls with
  | (Ok _, cls') => (Ok path, cls')
  | (Raise e, cls') => (Raise e, cls')
  end.

(** The class attributes after [n] calls of [_load] on the same file. *)
Fixpoint load_times (n : nat) (globs : option (list string)) (cls : registry)
  : registry :=
  match n with
  | 0 => cls
  | S n' => snd (_load globs (load_times n' globs cls))
  end.

(** The states of the class attributes that any sequence of [_load] calls
    can leave behind, whatever the file held at each call and whether or
    not the call raised. *)
Inductive reachable : registry -> Prop :=
| reach_class_body : reachable class_body
| reach_load globs cls : reachable cls -> reachable (snd (_load globs cls)).

(** ** The decompression command table

    [dq] is the double quote that surrounds the placeholder in the
    templates. *)

Definition dq : string := String (ascii_of_nat 34) EmptyString.

Definition _decompress_cmd_items : list (string * string) :=
  [ (".7z", "7z -mmt2 x " +:+ dq +:+ "{}" +:+ dq);
    (".Z", "uncompress.real " +:+ dq +:+ "{}" +:+ dq);
    (".ace", EmptyString);
    (".ar", EmptyString);
    (".arj", EmptyString);
    (".arz", EmptyString);
    (".bz2", "pbzip2 -d  " +:+ dq +:+ "{}" +:+ dq +:+ " ");
    (".bz", "pbzip2 -d  " +:+ dq +:+ "{}" +:+ dq +:+ " ");
    (".bzip2", "pbzip2 -d " +:+ dq +:+ "{}" +:+ dq +:+ " ");
    (".gz", "unpigz -p4 " +:+ dq +:+ "{}" +:+ dq +:+ " ");
    (".gzip", "unpigz -p 4 " +:+ dq +:+ "{}" +:+ dq +:+ " ");
    (".lrz", EmptyString);
    (".lz", EmptyString);
    (".lz4", EmptyString);
    (".lzh", EmptyString);
    (".lzip", EmptyString);
    (".lzma", EmptyString);
    (".lzo", EmptyString);
    (".pea", EmptyString);
    (".rar", "rar x " +:+ dq +:+ "{}" +:+ dq);
    (".tZ", EmptyString);
    (".tar", "tar -xf " +:+ dq +:+ "{}" +:+ dq);
    (".tar.Z", "tar --use-comppress-program=" +:+ dq +:+ "uncompress.real"
               +:+ dq +:+ " -xf " +:+ dq +:+ "{}" +:+ dq);
    (".tar.bz", "tar   --use-compress-program=pbzip2 -xf");
    (".tar.bz2", "tar  --use-compress-program=pbzip2 -xjf " +:+ dq +:+ "{}" +:+ dq);
    (".tar.bzip", EmptyString);
    (".tar.bzip2", "tar -xjf " +:+ dq +:+ "{}" +:+ dq);
    (".tar.gz", "tar -xzf " +:+ dq +:+ "{}" +:+ dq);
    (".tar.lrz", EmptyString);
    (".tar.lz", EmptyString);
    (".tar.lz4", EmptyString);
    (".tar.lzip", "tar --lzip -xf " +:+ dq +:+ "{}" +:+ dq);
    (".tar.lzma", "tar --lzma -xf " +:+ dq +:+ "{}" +:+ dq);
    (".tar.lzo", EmptyString);
    (".tar.xz", "tar --xz -xf " +:+ dq +:+ "{}" +:+ dq);
    (".tar.z", EmptyString);
    (".tar.zst", EmptyString);
    (".tar.zstd", "tar --zstd -xf " +:+ dq +:+ "{}" +:+ dq);
    (".tarbz2", "tar --use-compress-program=" +:+ dq +:+ "lbzip2" +:+ dq
                +:+ " -xf " +:+ dq +:+ "{}" +:+ dq);
    (".taz", EmptyString);
    (".tbz", "tar -xjf " +:+ dq +:+ "{}" +:+ dq);
    (".tbz2", "tar -xjf " +:+ dq +:+ "{}" +:+ dq);
    (".tgz", "tar -xzf " +:+ dq +:+ "{}" +:+ dq);
    (".tlrz", EmptyString);
    (".tlz", EmptyString);
    (".txz", EmptyString);
    (".tz", EmptyString);
    (".tzst", EmptyString);
    (".wmz", EmptyString);
    (".xz", "xz --decompress " +:+ dq +:+ "{}" +:+ dq);
    (".zip", "unzip " +:+ dq +:+ "{}" +:+ dq);
    (".zipx", EmptyString);
    (".zz", EmptyString) ].

Definition _decompress_cmd_map : gmap string string :=
  list_to_map _decompress_cmd_items.

(** ** Collaborators: the file system and the content sniffer *)

(** [pathext/constants.py] *)
Inductive PathPerm := D_RX | D_RWX | F_R | F_RW | F_RX | F_RWX.

Record filesystem := mkFs {
  resolve : PathExt -> PathExt;                  (* Path.resolve() *)
  path_is_file : PathExt -> result bool;         (* Path.is_file() *)
  path_is_dir : PathExt -> result bool;          (* Path.is_dir() *)
  os_access : PathExt -> PathPerm -> bool;       (* os.access(path, mode) *)
  sniff_is_binary : PathExt -> result bool;      (* binaryornot.check.is_binary *)
}.

(** What [mime] can return: [None], one string, or the list. *)
Inductive mime_value :=
| MimeNone
| MimeStr (s : string)
| MimeList (l : list string).

(** [x in v] where [v] came from [mime]: a substring test on a string, a
    membership test on a list, and [TypeError] on [None]. *)
Definition py_in (x : string) (v : mime_value) : result bool :=
  match v with
  | MimeNone => Raise TypeError
  | MimeStr s => Ok (PyStr.contains x s)
  | MimeList l => Ok (PyList.contains x l)
  end.

(** ** The properties of [PathExt] *)

Section PathExt.

Variable fs : filesystem.
Variable cls : registry.

(** [Path(self).is_symlink] without a call is the bound method of a plain
    [Path], which is truthy whatever the path is. *)
Definition plain_path_is_symlink_attr (_tmp_path : PathExt) : bool := true.

(** [PathExt.exts] *)
Definition exts (self : PathExt) : result (option string) :=
  let _tmp_path := self in
  let _tmp_path :=
    if plain_path_is_symlink_attr _tmp_path then resolve fs self
    else _tmp_path in
  let* f := path_is_file fs _tmp_path in
  if f then
    if PyList.contains ".tar" (Pathlib.suffixes self)
    then Ok (Some (PyStr.join (PyList.last_two (Pathlib.suffixes self))))
    else Ok (Some (Pathlib.suffix self))
  else Ok None.

(** [PathExt.extension] (also bound to [ext]): the [for] loop over
    [self.suffixes] with the accumulator [file_ext]. *)
Definition extension_step (file_ext suffix : string) : string :=
  if PyDict.contains suffix (_ext2mime_map cls)
  then file_ext +:+ suffix
  else file_ext.

Definition extension (self : PathExt) : string :=
  fold_left extension_step (Pathlib.suffixes self) EmptyString.

(** [PathExt.mime]:
    [result = self._ext2mime_map.get(file_ext)]
    [return result[0] if len(result or []) == 1 else result] *)
Definition mime (self : PathExt) : mime_value :=
  let file_ext := extension self in
  let result := _ext2mime_map cls !! file_ext in
  if Nat.eqb (length (default [] result)) 1
  then match result with
       | Some (x :: _) => MimeStr x
       | _ => MimeNone
       end
  else match result with
       | Some l => MimeList l
       | None => MimeNone
       end.

(** [PathExt.is_readable] *)
Definition is_readable (self : PathExt) : result bool :=
  let _tmp_path := resolve fs self in
  let* f := path_is_file fs _tmp_path in
  let* c := (if f then Ok true else path_is_dir fs _tmp_path) in
  if c then
    let* d := path_is_dir fs _tmp_path in
    Ok (os_access fs self (if d then D_RX else F_R))
  else Ok false.

(** [PathExt.is_binary] *)
Definition is_binary (self : PathExt) : result bool :=
  let* r := is_readable self in
  if r then sniff_is_binary fs (resolve fs self) else Ok false.

(** [PathExt.is_compressed] *)
Definition is_compressed (self : PathExt) : result bool :=
  let* b := is_binary self in
  if b then Ok (PyDict.contains (extension self) _decompress_cmd_map)
  else Ok false.

(** [PathExt.is_video] *)
Definition is_video (self : PathExt) : result bool :=
  let* b := is_binary self in
  if b then
    let* e := py_in (PyStr.strip "." (extension self)) (mime self) in
    if e then Ok true else py_in "video" (mime self)
  else Ok false.

(** [PathExt.is_audio] *)
Definition is_audio (self : PathExt) : result bool :=
  let* b := is_binary self in
  if b then
    let* e := py_in (PyStr.strip "." (extension self)) (mime self) in
    if e then Ok true else py_in "audio" (mime self)
  else Ok false.

(** [PathExt.is_font] *)
Definition is_font (self : PathExt) : result bool :=
  let* b := is_binary self in
  if b then
    let* e := py_in (PyStr.strip "." (extension self)) (mime self) in
    if e then Ok true else py_in "font" (mime self)
  else Ok false.

End PathExt.

(** ** The loader keeps every MIME list of [_ext2mime_map] non-empty and
       free of repetitions *)

Definition mime_lists_wf (e2m : gmap string (list string)) : Prop :=
  ∀ ext l, e2m !! ext = Some l → l ≠ [] ∧ NoDup l.

(** ** What one line of the globs file does *)

Inductive line_kind :=
| Skipped                              (* blank or comment *)
| Malformed                            (* not exactly two fields *)
| Entry (mime ext : string).

Definition line_entry (ln : string) : line_kind :=
  if PyStr.truthy ln && negb (PyStr.startswith "#" ln) then
    match PyStr.split ":" ln with
    | [mime; ext] => Entry mime (PyStr.strip "*" ext)
    | _ => Malformed
    end
  else Skipped.

Definition add_ext2mime (mime ext : string) (e2m : gmap string (list string))
  : gmap string (list string) :=
  match e2m !! ext with
  | Some l => if PyList.contains mime l then e2m else <[ext := l ++ [mime]]> e2m
  | None => <[ext := [mime]]> e2m
  end.

Definition add_mime2ext (mime ext : string) (m2e : gmap string (list string))
  : gmap string (list string) :=
  match m2e !! mime with
  | Some l => <[mime := l ++ [ext]]> m2e
  | None => <[mime := [ext]]> m2e
  end.

(** [mime] is already listed under [ext]. *)
Definition listed (mime ext : string) (e2m : gmap string (list string)) : Prop :=
  ∃ l, e2m !! ext = Some l ∧ mime ∈ l.

(** A line that the loop can read again without changing [_ext2mime_map]. *)
Definition line_settled (e2m : gmap string (list string)) (ln : string) : Prop :=
  match line_entry ln with
  | Skipped => True
  | Malformed => False
  | Entry mime ext => listed mime ext e2m
  end.

(** ** What a load does to [_mime2ext_map] *)

(** The extensions listed under [mime], [[]] when it is not a key. *)
Definition listed_exts (m2e : gmap string (list string)) (mime : string)
  : list string := default [] (m2e !! mime).

(** The extensions that the entry lines of a file give to [mime], in file
    order. *)
Fixpoint exts_of (mime : string) (lines : list string) : list string :=
  match lines with
  | [] => []
  | ln :: rest =>
      match line_entry ln with
      | Entry mime' ext =>
          if decide (mime' = mime) then ext :: exts_of mime rest
          else exts_of mime rest
      | _ => exts_of mime rest
      end
  end.

(** ** The resolved extension *)

Definition registered (cls : registry) (suffix : string) : bool :=
  PyDict.contains suffix (_ext2mime_map cls).

(** The resolver as the specification words it: of the chains "suffixes
    from position i to the end", the longest one that is a key of
    [_ext2mime_map], and the empty string when none is. *)
Fixpoint longest_registered_chain (cls : registry) (suffixes : list string)
  : string :=
  match suffixes with
  | [] => EmptyString
  | _ :: rest =>
      if registered cls (PyStr.join suffixes) then PyStr.join suffixes
      else longest_registered_chain cls rest
  end.

(** ** The decompression command

    Modelled from the spec: [decompression_command], which [core.py] does
    not define (it holds only the table [_decompress_cmd_map] and uses it
    for membership in [is_compressed]).  The specification: look up the
    template of the extension; if it is found and not empty, substitute the
    target path into its placeholder and return the command; if the
    extension is unrecognized or its template is empty, return absence. *)
Definition decompression_command (resolved_extension target_path : string)
  : option string :=
  match _decompress_cmd_map !! resolved_extension with
  | Some template =>
      if PyStr.truthy template then Some (PyStr.format template target_path)
      else None
  | None => None
  end.

(** ** Sample files, file systems and globs files *)

(** Every path is a readable regular file with binary content. *)
Definition fs_binary_files : filesystem :=
  mkFs (fun p => p) (fun _ => Ok true) (fun _ => Ok false)
       (fun _ _ => true) (fun _ => Ok true).

(** Every path is a regular file that the caller has no permission to read:
    [os.access] answers [False] and opening the file raises. *)
Definition fs_access_denied : filesystem :=
  mkFs (fun p => p) (fun _ => Ok true) (fun _ => Ok false)
       (fun _ _ => false) (fun _ => Raise PermissionError).

(** No path exists. *)
Definition fs_nothing : filesystem :=
  mkFs (fun p => p) (fun _ => Ok false) (fun _ => Ok false)
       (fun _ _ => false) (fun _ => Raise FileNotFoundError).

Definition globs_gz : list string :=
  ["application/gzip:*.gz"; "application/x-compressed-tar:*.tar.gz"].

Definition globs_tar_gz : list string :=
  ["application/x-tar:*.tar"; "application/gzip:*.gz";
   "application/x-compressed-tar:*.tar.gz"].

Definition globs_images : list string :=
  ["image/jpeg:*.jpeg"; "image/png:*.png"].

Definition globs_ogg : list string :=
  ["audio/ogg:*.ogg"; "audio/x-vorbis+ogg:*.ogg"; "video/x-theora+ogg:*.ogg"].

Definition globs_txt : list string := ["text/plain:*.txt"].

Definition loaded (lines : list string) : registry :=
  snd (_load (Some lines) class_body).

Definition data_tar_gz : PathExt := mkPath "/tmp" "data.tar.gz".
Definition a_jpeg_png : PathExt := mkPath "/tmp" "a.jpeg.png".
Definition song_ogg : PathExt := mkPath "/tmp" "song.ogg".
Definition notes_xyz : PathExt := mkPath "/tmp" "notes.xyz".
Definition secret_gz : PathExt := mkPath "/tmp" "secret.gz".

(** ** Counting a character *)

(** [s.count(c)] for one character. *)
Fixpoint count_char (c : ascii) (s : string) : nat :=
  match s with
  | EmptyString => 0
  | String a s' => (if Ascii.eqb a c then 1 else 0) + count_char c s'
  end.

(** [l * n] for a list: [n] copies of [l], one after the other. *)
Fixpoint times {A} (n : nat) (l : list A) : list A :=
  match n with
  | 0 => []
  | S n' => l ++ times n' l
  end.

(** ** More of Python's strings and integers *)

Module PyStrMore.

(** [s.replace('', new)]: [new] goes before every character and at the
    end. *)
Fixpoint replace_empty (new s : string) : string :=
  match s with
  | EmptyString => new
  | String a s' => new +:+ String a (replace_empty new s')
  end.

(** [s.replace(old, new)] for a non-empty [old], left to right without
    overlap; [skip] counts the characters of a match still to be dropped. *)
Fixpoint replace_go (old new : string) (skip : nat) (s : string) : string :=
  match s with
  | EmptyString => EmptyString
  | String a s' =>
      match skip with
      | S k => replace_go old new k s'
      | 0 =>
          if String.prefix old s
          then new +:+ replace_go old new (String.length old - 1) s'
          else String a (replace_go old new 0 s')
      end
  end.

(** [s.replace(old, new)] *)
Definition replace (old new s : string) : string :=
  match old with
  | EmptyString => replace_empty new s
  | String _ _ => replace_go old new 0 s
  end.

(** [s[-3:]] *)
Definition last_three (s : string) : string :=
  PyStr.slice_from (String.length s - 3) s.

End PyStrMore.

Module PyInt.

(** The character of one digit. *)
Definition digit (d : N) : string :=
  String (ascii_of_N (48 + d)) EmptyString.

(** The octal digits of a positive number, three bits at a time. *)
Fixpoint oct_pos (p : positive) : string :=
  match p with
  | 1%positive => "1"
  | 2%positive => "2"
  | 3%positive => "3"
  | 4%positive => "4"
  | 5%positive => "5"
  | 6%positive => "6"
  | 7%positive => "7"
  | (q~0~0~0)%positive => oct_pos q +:+ "0"
  | (q~0~0~1)%positive => oct_pos q +:+ "1"
  | (q~0~1~0)%positive => oct_pos q +:+ "2"
  | (q~0~1~1)%positive => oct_pos q +:+ "3"
  | (q~1~0~0)%positive => oct_pos q +:+ "4"
  | (q~1~0~1)%positive => oct_pos q +:+ "5"
  | (q~1~1~0)%positive => oct_pos q +:+ "6"
  | (q~1~1~1)%positive => oct_pos q +:+ "7"
  end.

Definition oct_digits (n : N) : string :=
  match n with
  | N0 => "0"
  | Npos p => oct_pos p
  end.

(** [oct(n)] for [n >= 0]. *)
Definition oct (n : N) : string := "0o" +:+ oct_digits n.

(** [int(s)] for a string without sign, blanks or underscores: the decimal
    value when every character is a digit and there is at least one, and
    [ValueError] otherwise. *)
Fixpoint int_go (acc : N) (s : string) : result N :=
  match s with
  | EmptyString => Ok acc
  | String c s' =>
      let v := N_of_ascii c in
      if ((48 <=? v) && (v <=? 57))%N then int_go (10 * acc + (v - 48)) s'
      else Raise ValueError
  end.

Definition int (s : string) : result N :=
  match s with
  | EmptyString => Raise ValueError
  | String _ _ => int_go 0 s
  end.

End PyInt.

(** ** More collaborators: [stat] and directory listings *)

(** The fields of [os.stat_result] that [PathExt] reads. *)
Record stat_result := mkStatResult {
  st_mode : N;
  st_size : N;
}.

Record statfs := mkStatFs {
  stat : PathExt -> result stat_result;           (* self.stat() *)
  path_is_symlink : PathExt -> result bool;       (* Path.is_symlink() *)
  iterdir : PathExt -> result (list PathExt);     (* self.iterdir() *)
}.

(** [Path.rglob] as [PathExt] inherits it.  Before it yields anything,
    pathlib's selector takes [is_dir = type(path).is_dir] and calls
    [is_dir(path)]; in [PathExt], [is_dir] is a property, and calling the
    property object raises [TypeError], whatever the path and the
    pattern. *)
Definition pathlib_rglob (self : PathExt) (pattern : string)
  : result (list PathExt) := Raise TypeError.

(** [PathExt.rglob]:
    [return list(map(PathExt, super().rglob(pattern or '*')))]
    ([PathExt(p)] is the path [p] again). *)
Definition rglob (self : PathExt) (pattern : option string)
  : result (list PathExt) :=
  let pattern :=
    match pattern with
    | Some p => if PyStr.truthy p then p else "*"
    | None => "*"
    end in
  let* found := pathlib_rglob self pattern in
  Ok found.

(** What [permissions] can return: the three characters or the number. *)
Inductive perm_value :=
| PermStr (s : string)
| PermInt (n : N).

(** The dictionary [_types] of [PathExt.type], in the order it is written:
    0o100000, 0o040000, 0o120000, 0o140000, 0o020000, 0o060000, 0o010000,
    0o170000. *)
Definition _types : list (string * N) :=
  [ ("file", 32768%N); ("dir", 16384%N); ("link", 40960%N);
    ("socket", 49152%N); ("char", 8192%N); ("block", 24576%N);
    ("fifo", 4096%N); ("special", 61440%N) ].

(** ** More properties of [PathExt] *)

Section PathExtMore.

Variable fs : filesystem.
Variable sfs : statfs.

(** [PathExt.stem]:
    [_stem = super().name or '']
    [return _stem.replace(self.exts or '', '')] *)
Definition stem (self : PathExt) : result string :=
  let _stem := if PyStr.truthy (name self) then name self else EmptyString in
  let* e := exts fs self in
  Ok (PyStrMore.replace (default EmptyString e) EmptyString _stem).

(** [PathExt.is_writable] *)
Definition is_writable (self : PathExt) : result bool :=
  let _tmp_path := resolve fs self in
  let* f := path_is_file fs _tmp_path in
  let* c := (if f then Ok true else path_is_dir fs _tmp_path) in
  if c then
    let* d := path_is_dir fs _tmp_path in
    Ok (os_access fs self (if d then D_RWX else F_RW))
  else Ok false.

(** [PathExt.is_executable] *)
Definition is_executable (self : PathExt) : result bool :=
  let* f := path_is_file fs self in
  if f then Ok (os_access fs self F_RX) else Ok false.

(** The list comprehension of [size] over the entries of a directory:
    [[entry.stat().st_size for entry in ...
      if not entry.is_symlink and self.is_file]] *)
Fixpoint dir_sizes (self : PathExt) (entries : list PathExt)
  : result (list N) :=
  match entries with
  | [] => Ok []
  | entry :: rest =>
      let* l := path_is_symlink sfs entry in
      let* keep := (if negb l then path_is_file fs self else Ok false) in
      let* here :=
        (if keep then let* st := stat sfs entry in Ok [st_size st]
         else Ok []) in
      let* more := dir_sizes self rest in
      Ok (here ++ more)
  end.

(** [sum(l)] *)
Definition py_sum (l : list N) : N := fold_left N.add l 0%N.

(** [PathExt.size] *)
Definition size (self : PathExt) : result N :=
  let* r := is_readable fs self in
  if r then
    let* f := path_is_file fs self in
    if f then
      let* st := stat sfs self in Ok (st_size st)
    else
      let* d := path_is_dir fs self in
      if d then
        let* entries := rglob self (Some "*") in
        let* sizes := dir_sizes self entries in
        Ok (py_sum sizes)
      else Raise FileNotFoundError
  else Raise PermissionError.

(** [any(l)] for a list of paths: a path object is truthy, so the list
    only has to hold one. *)
Definition any_path (l : list PathExt) : bool := existsb (fun _ => true) l.

(** [PathExt.is_empty]; [None] when the path is neither a file nor a
    directory. *)
Definition is_empty (self : PathExt) : result (option bool) :=
  let* f := path_is_file fs self in
  if f then
    let* s := size self in Ok (Some (N.eqb s 0))
  else
    let* d := path_is_dir fs self in
    if d then
      let* l := iterdir sfs self in Ok (Some (negb (any_path l)))
    else Ok None.

(** The generator of [PathExt.type]: [stat] is called for each item until
    one matches. *)
Fixpoint first_type (self : PathExt) (items : list (string * N))
  : result string :=
  match items with
  | [] => Ok "unknown"
  | (k, v) :: rest =>
      let* st := stat sfs self in
      if negb (N.eqb (N.land (st_mode st) v) 0) then Ok k
      else first_type self rest
  end.

(** [PathExt.type] *)
Definition type (self : PathExt) : result string := first_type self _types.

(** [PathExt.permissions] *)
Definition permissions (octal : bool) (self : PathExt) : result perm_value :=
  let* st := stat sfs self in
  let perm := PyStrMore.last_three (PyInt.oct (st_mode st)) in
  if octal then
    let* n := PyInt.int perm in Ok (PermInt n)
  else Ok (PermStr perm).

End PathExtMore.

(** ** The word counters

    [wc = num_words] binds [wc] to the property [num_words] itself, so the
    [self.wc] inside [num_words] runs [num_words] again.  [frames] is the
    number of stack frames left before Python raises [RecursionError]. *)

Inductive deep (A : Type) : Type :=
| Done (r : result A)
| RecursionError.
Arguments Done {A} r.
Arguments RecursionError {A}.

(** [PathExt.num_words]: [return self.wc[1]] *)
Fixpoint num_words (frames : nat) (self : PathExt) : deep N :=
  match frames with
  | 0 => RecursionError
  | S frames' =>
      match num_words frames' self with      (* self.wc *)
      | Done (Ok _) => Done (Raise TypeError)  (* an int has no [1] *)
      | Done (Raise e) => Done (Raise e)
      | RecursionError => RecursionError
      end
  end.

(** [wc = num_words] *)
Definition wc : nat -> PathExt -> deep N := num_words.

(** [PathExt.num_chars]: [return self.wc[2]] *)
Definition num_chars (frames : nat) (self : PathExt) : deep N :=
  match frames with
  | 0 => RecursionError
  | S frames' =>
      match wc frames' self with
      | Done (Ok _) => Done (Raise TypeError)
      | Done (Raise e) => Done (Raise e)
      | RecursionError => RecursionError
      end
  end.

(** ** More sample file systems *)

(** Every path is a readable directory. *)
Definition fs_directories : filesystem :=
  mkFs (fun p => p) (fun _ => Ok false) (fun _ => Ok true)
       (fun _ _ => true) (fun _ => Raise PermissionError).

Definition sfs_sample : statfs :=
  mkStatFs (fun _ => Ok (mkStatResult 33188 1200))
           (fun _ => Ok false)
           (fun p => Ok [mkPath (name p) "a.txt"; mkPath (name p) "b.txt"]).

(** [stat] answers with the given mode for every path. *)
Definition sfs_mode (mode : N) : statfs :=
  mkStatFs (fun _ => Ok (mkStatResult mode 0))
           (fun _ => Ok false) (fun _ => Ok []).

(** A mask over the four file-format bits of [st_mode] (bits 15 to 12). *)
Definition fmt_mask (b15 b14 b13 b12 : bool) : N :=
  N.lor (N.lor (if b15 then 2 ^ 15 else 0) (if b14 then 2 ^ 14 else 0))
        (N.lor (if b13 then 2 ^ 13 else 0) (if b12 then 2 ^ 12 else 0)).

(** The MIME types that the entry lines of a file give to [ext], in file
    order, repetitions included. *)
Fixpoint mimes_of (ext : string) (lines : list string) : list string :=
  match lines with
  | [] => []
  | ln :: rest =>
      match line_entry ln with
      | Entry mime ext' =>
          if decide (ext' = ext) then mime :: mimes_of ext rest
          else mimes_of ext rest
      | _ => mimes_of ext rest
      end
  end.

(** [l.append(x)] guarded by [if x not in l]. *)
Definition append_new (l : list string) (x : string) : list string :=
  if PyList.contains x l then l else l ++ [x].

(** The elements of a list, each once, in order of first appearance. *)
Definition first_appearances (l : list string) : list string :=
  rev (remove_dups (rev l)).

(** * Properties *)

Example suffixes_tar_gz :
  Pathlib.suffixes (mkPath "/tmp" "data.tar.gz") = [".tar"; ".gz"].
Proof. reflexivity. Qed.

Example suffixes_hidden :
  Pathlib.suffixes (mkPath "/root" ".bashrc") = [].
Proof. reflexivity. Qed.

Example suffix_tar_gz : Pathlib.suffix (mkPath "/tmp" "data.tar.gz") = ".gz".
Proof. reflexivity. Qed.

Example load_text_plain :
  let cls := snd (_load (Some ["# comment"; EmptyString; "text/plain:*.txt"]) class_body) in
  _ext2mime_map cls !! ".txt" = Some ["text/plain"]
  /\ _mime2ext_map cls !! "text/plain" = Some [".txt"].
Proof. split; vm_compute; reflexivity. Qed.

Example load_malformed :
  fst (_load (Some ["a/b:*.x"; "no colon"; "c/d:*.y"]) class_body) = Raise ValueError.
Proof. vm_compute. reflexivity. Qed.

Lemma mime_lists_wf_empty : mime_lists_wf ∅.
Proof. intros ext l H. by rewrite lookup_empty in H. Qed.

Lemma load_line_wf ln cls :
  mime_lists_wf (_ext2mime_map cls) →
  mime_lists_wf (_ext2mime_map (snd (load_line ln cls))).
Proof.
  intros Hwf. unfold load_line.
  destruct (PyStr.truthy ln && negb (PyStr.startswith "#" ln)); [|done].
  destruct (PyStr.split ":" ln) as [|mime [|ext [|? ?]]]; try done.
  cbn [snd _ext2mime_map].
  set (e := PyStr.strip "*" ext).
  destruct (_ext2mime_map cls !! e) as [l|] eqn:Hl.
  - unfold PyList.contains. case_bool_decide as Hin; [done|].
    intros k l' Hk. destruct (decide (e = k)) as [->|Hne].
    + rewrite lookup_insert_eq in Hk. injection Hk as <-.
      destruct (Hwf _ _ Hl) as [_ Hnd]. split.
      * by destruct l.
      * apply NoDup_app. split_and!; [done| |apply NoDup_singleton].
        intros x Hx Hx'. apply list_elem_of_singleton in Hx'. by subst.
    + rewrite lookup_insert_ne in Hk by done. eauto.
  - intros k l' Hk. destruct (decide (e = k)) as [->|Hne].
    + rewrite lookup_insert_eq in Hk. injection Hk as <-.
      split; [done|apply NoDup_singleton].
    + rewrite lookup_insert_ne in Hk by done. eauto.
Qed.

Lemma load_lines_wf lines cls :
  mime_lists_wf (_ext2mime_map cls) →
  mime_lists_wf (_ext2mime_map (snd (load_lines lines cls))).
Proof.
  revert cls. induction lines as [|ln rest IH]; intros cls Hwf; [done|].
  cbn [load_lines]. pose proof (load_line_wf ln cls Hwf) as Hstep.
  destruct (load_line ln cls) as [[[]|e] cls']; cbn [snd] in *; auto.
Qed.

Lemma _load_wf globs cls :
  mime_lists_wf (_ext2mime_map cls) →
  mime_lists_wf (_ext2mime_map (snd (_load globs cls))).
Proof.
  intros Hwf. destruct globs as [lines|]; cbn [_load]; [|done].
  pose proof (load_lines_wf lines cls Hwf) as H.
  by destruct (load_lines lines cls) as [[[]|e] cls'].
Qed.

Lemma reachable_wf cls : reachable cls → mime_lists_wf (_ext2mime_map cls).
Proof.
  induction 1 as [|globs cls _ IH].
  - apply mime_lists_wf_empty.
  - by apply _load_wf.
Qed.

Lemma load_line_unfold ln cls :
  load_line ln cls =
    match line_entry ln with
    | Skipped => (Ok tt, cls)
    | Malformed => (Raise ValueError, cls)
    | Entry mime ext =>
        (Ok tt, mkRegistry (add_ext2mime mime ext (_ext2mime_map cls))
                           (add_mime2ext mime ext (_mime2ext_map cls)))
    end.
Proof.
  unfold load_line, line_entry.
  destruct (PyStr.truthy ln && negb (PyStr.startswith "#" ln)); [|done].
  by destruct (PyStr.split ":" ln) as [|mime [|ext [|? ?]]].
Qed.

Lemma add_ext2mime_listed mime ext e2m : listed mime ext (add_ext2mime mime ext e2m).
Proof.
  unfold listed, add_ext2mime, PyList.contains.
  destruct (e2m !! ext) as [l|] eqn:Hl.
  - case_bool_decide; [by eauto|].
    exists (l ++ [mime]). rewrite lookup_insert_eq. split; [done|].
    apply elem_of_app. right. by apply list_elem_of_singleton.
  - exists [mime]. rewrite lookup_insert_eq. split; [done|].
    by apply list_elem_of_singleton.
Qed.

Lemma add_ext2mime_mono mime ext mime' ext' e2m :
  listed mime' ext' e2m → listed mime' ext' (add_ext2mime mime ext e2m).
Proof.
  intros (l' & Hl' & Hin). unfold listed, add_ext2mime, PyList.contains.
  destruct (e2m !! ext) as [l|] eqn:Hl.
  - case_bool_decide; [by eauto|].
    destruct (decide (ext = ext')) as [->|Hne].
    + exists (l ++ [mime]). rewrite lookup_insert_eq. split; [done|].
      apply elem_of_app. left. congruence.
    + exists l'. by rewrite lookup_insert_ne.
  - destruct (decide (ext = ext')) as [->|Hne]; [congruence|].
    exists l'. by rewrite lookup_insert_ne.
Qed.

Lemma add_ext2mime_fixed mime ext e2m :
  listed mime ext e2m → add_ext2mime mime ext e2m = e2m.
Proof.
  intros (l & Hl & Hin). unfold add_ext2mime, PyList.contains. rewrite Hl.
  by rewrite bool_decide_eq_true_2.
Qed.

Lemma load_line_settles ln cls cls' :
  load_line ln cls = (Ok tt, cls') → line_settled (_ext2mime_map cls') ln.
Proof.
  rewrite load_line_unfold. unfold line_settled.
  destruct (line_entry ln) as [| |mime ext]; intros H; try done.
  injection H as <-. apply add_ext2mime_listed.
Qed.

Lemma load_line_keeps_settled ln ln0 cls :
  line_settled (_ext2mime_map cls) ln0 →
  line_settled (_ext2mime_map (snd (load_line ln cls))) ln0.
Proof.
  rewrite load_line_unfold. unfold line_settled.
  destruct (line_entry ln0) as [| |mime0 ext0]; try done.
  destruct (line_entry ln) as [| |mime ext]; try done.
  apply add_ext2mime_mono.
Qed.

Lemma load_lines_keeps_settled lines ln0 cls :
  line_settled (_ext2mime_map cls) ln0 →
  line_settled (_ext2mime_map (snd (load_lines lines cls))) ln0.
Proof.
  revert cls. induction lines as [|ln rest IH]; intros cls H; [done|].
  cbn [load_lines]. pose proof (load_line_keeps_settled ln ln0 cls H) as Hs.
  destruct (load_line ln cls) as [[[]|e] cls']; cbn [snd] in *; auto.
Qed.

Lemma load_lines_settles lines cls cls' :
  load_lines lines cls = (Ok tt, cls') →
  Forall (line_settled (_ext2mime_map cls')) lines.
Proof.
  revert cls. induction lines as [|ln rest IH]; intros cls H; [constructor|].
  cbn [load_lines] in H.
  destruct (load_line ln cls) as [[[]|e] cls1] eqn:Hln; [|done].
  constructor; [|by eapply IH].
  apply load_line_settles in Hln.
  pose proof (load_lines_keeps_settled rest ln cls1 Hln) as Hk.
  by rewrite H in Hk.
Qed.

Lemma load_lines_settled_fixed lines cls :
  Forall (line_settled (_ext2mime_map cls)) lines →
  fst (load_lines lines cls) = Ok tt
  ∧ _ext2mime_map (snd (load_lines lines cls)) = _ext2mime_map cls.
Proof.
  revert cls. induction lines as [|ln rest IH]; intros cls H; [done|].
  inversion H as [|? ? Hln Hrest]; subst.
  cbn [load_lines]. rewrite load_line_unfold.
  unfold line_settled in Hln.
  destruct (line_entry ln) as [| |mime ext]; [by apply IH|done|].
  rewrite <- (add_ext2mime_fixed mime ext _ Hln) at 3.
  apply IH. cbn [_ext2mime_map]. by rewrite add_ext2mime_fixed.
Qed.

(** The half of idempotence that the code has: once a load has returned,
    loading the same lines again returns too and leaves [_ext2mime_map]
    as it was. *)
Lemma reload_keeps_ext2mime lines cls cls1 :
  load_lines lines cls = (Ok tt, cls1) →
  fst (load_lines lines cls1) = Ok tt
  ∧ _ext2mime_map (snd (load_lines lines cls1)) = _ext2mime_map cls1.
Proof. intros H. apply load_lines_settled_fixed. by eapply load_lines_settles. Qed.

Lemma add_mime2ext_listed mime ext m2e mime' :
  listed_exts (add_mime2ext mime ext m2e) mime' =
    if decide (mime = mime') then listed_exts m2e mime' ++ [ext]
    else listed_exts m2e mime'.
Proof.
  unfold listed_exts, add_mime2ext.
  destruct (decide (mime = mime')) as [->|Hne].
  - destruct (m2e !! mime') as [l|] eqn:Hl; by rewrite lookup_insert_eq.
  - destruct (m2e !! mime) as [l|] eqn:Hl; by rewrite lookup_insert_ne.
Qed.

Lemma load_lines_mime2ext lines cls cls' mime :
  load_lines lines cls = (Ok tt, cls') →
  listed_exts (_mime2ext_map cls') mime =
    listed_exts (_mime2ext_map cls) mime ++ exts_of mime lines.
Proof.
  revert cls. induction lines as [|ln rest IH]; intros cls H.
  - injection H as <-. by rewrite app_nil_r.
  - cbn [load_lines exts_of] in *. rewrite load_line_unfold in H.
    destruct (line_entry ln) as [| |mime' ext]; [by apply IH|done|].
    rewrite (IH _ H). cbn [_mime2ext_map]. rewrite add_mime2ext_listed.
    destruct (decide (mime' = mime)); [|done].
    by rewrite <- app_assoc.
Qed.

(** The half of idempotence that the code lacks: a second load of the same
    lines appends to every list of [_mime2ext_map] the extensions that the
    first load had already appended. *)
Lemma reload_doubles_mime2ext lines cls1 cls2 mime :
  load_lines lines class_body = (Ok tt, cls1) →
  load_lines lines cls1 = (Ok tt, cls2) →
  listed_exts (_mime2ext_map cls1) mime = exts_of mime lines
  ∧ listed_exts (_mime2ext_map cls2) mime = exts_of mime lines ++ exts_of mime lines.
Proof.
  intros H1 H2.
  pose proof (load_lines_mime2ext _ _ _ mime H1) as E1.
  pose proof (load_lines_mime2ext _ _ _ mime H2) as E2.
  cbn in E1. by rewrite E2, E1.
Qed.

Lemma append_cons a (s t : string) : String a s +:+ t = String a (s +:+ t).
Proof. reflexivity. Qed.

Lemma append_nil_r s : s +:+ EmptyString = s.
Proof. induction s as [|a s IH]; [done|]. by rewrite append_cons, IH. Qed.

Lemma join_cons s l : PyStr.join (s :: l) = s +:+ PyStr.join l.
Proof.
  unfold PyStr.join. destruct l as [|s' l]; cbn [String.concat].
  - by rewrite append_nil_r.
  - done.
Qed.

Lemma append_assoc' (a b c : string) : (a +:+ b) +:+ c = a +:+ (b +:+ c).
Proof. induction a as [|x a IH]; [done|]. by rewrite !append_cons, IH. Qed.

Lemma extension_loop cls suffixes file_ext :
  fold_left (extension_step cls) suffixes file_ext =
    file_ext +:+ PyStr.join (List.filter (registered cls) suffixes).
Proof.
  revert file_ext.
  induction suffixes as [|s rest IH]; intros file_ext;
    cbn [fold_left List.filter].
  - change (PyStr.join []) with EmptyString. by rewrite append_nil_r.
  - rewrite IH. unfold extension_step, registered.
    destruct (PyDict.contains s (_ext2mime_map cls)); [|done].
    by rewrite join_cons, append_assoc'.
Qed.

Lemma extension_filter cls self :
  extension cls self =
    PyStr.join (List.filter (registered cls) (Pathlib.suffixes self)).
Proof. unfold extension. by rewrite extension_loop. Qed.

Lemma filter_all_false {A} (f : A → bool) l :
  Forall (λ x, f x = false) l → List.filter f l = [].
Proof. induction 1 as [|x l Hx _ IH]; cbn; [done|]. by rewrite Hx. Qed.

Lemma filter_all_true {A} (f : A → bool) l :
  Forall (λ x, f x = true) l → List.filter f l = l.
Proof. induction 1 as [|x l Hx _ IH]; cbn; [done|]. by rewrite Hx, IH. Qed.


(** C1, as stated, fails.  With [.gz] and [.tar.gz] both keys of
    [_ext2mime_map] (and [.tar] not a key), the longest chain of the
    suffixes of [data.tar.gz] that is a key is [.tar.gz], and [extension]
    returns [.gz]. *)
Lemma extension_data_tar_gz_is_gz :
  registered (loaded globs_gz) ".gz" = true
  ∧ registered (loaded globs_gz) ".tar.gz" = true
  ∧ longest_registered_chain (loaded globs_gz) (Pathlib.suffixes data_tar_gz)
    = ".tar.gz"
  ∧ extension (loaded globs_gz) data_tar_gz = ".gz"
  ∧ extension (loaded globs_gz) data_tar_gz
    ≠ longest_registered_chain (loaded globs_gz) (Pathlib.suffixes data_tar_gz).
Proof. split_and!; try (vm_compute; reflexivity). vm_compute. discriminate. Qed.

(** C1, amended.  [extension] returns the concatenation, in order, of the
    suffixes of the path name that are each by itself a key of
    [_ext2mime_map].  So when the suffixes split into a front part of
    which no suffix is by itself a key and a rear part of which every
    suffix is by itself a key, it returns the chain of the rear part,
    whether or not that chain is itself a key. *)
Theorem extension_chain_of_registered_tail cls self :
  extension cls self
  = PyStr.join (List.filter (registered cls) (Pathlib.suffixes self))
  ∧ (∀ pre post,
       Pathlib.suffixes self = pre ++ post →
       Forall (λ s, registered cls s = false) pre →
       Forall (λ s, registered cls s = true) post →
       extension cls self = PyStr.join post).
Proof.
  split; [apply extension_filter|].
  intros pre post Hs Hpre Hpost. rewrite extension_filter, Hs, List.filter_app.
  by rewrite (filter_all_false _ _ Hpre), (filter_all_true _ _ Hpost).
Qed.

Lemma extension_chain_of_registered_tail_witness :
  extension (loaded globs_gz) data_tar_gz = PyStr.join [".gz"]
  ∧ extension (loaded globs_tar_gz) data_tar_gz = PyStr.join [".tar"; ".gz"].
Proof.
  split.
  - apply (proj2 (extension_chain_of_registered_tail (loaded globs_gz)
                    data_tar_gz) [".tar"] [".gz"]).
    + reflexivity.
    + repeat constructor.
    + repeat constructor.
  - apply (proj2 (extension_chain_of_registered_tail (loaded globs_tar_gz)
                    data_tar_gz) [] [".tar"; ".gz"]).
    + reflexivity.
    + constructor.
    + repeat constructor.
Defined.

(** C10.  [extension] returns the concatenation, in order, of exactly those
    suffixes of the path name that are by themselves keys of
    [_ext2mime_map].  For [a.jpeg.png] with [.jpeg] and [.png] registered,
    every suffix is a key, the resolved extension [.jpeg.png] is not, and
    [mime] returns [None]. *)
Theorem extension_concat_of_registered_suffixes :
  (∀ cls self,
     extension cls self =
       PyStr.join (List.filter (registered cls) (Pathlib.suffixes self)))
  ∧ (Forall (λ s, registered (loaded globs_images) s = true)
            (Pathlib.suffixes a_jpeg_png)
     ∧ extension (loaded globs_images) a_jpeg_png = ".jpeg.png"
     ∧ registered (loaded globs_images) ".jpeg.png" = false
     ∧ mime (loaded globs_images) a_jpeg_png = MimeNone).
Proof.
  split; [apply extension_filter|].
  split_and!; try (vm_compute; reflexivity).
  repeat constructor.
Qed.

(** C6.  [exts] returns [None] for every path that, once resolved, is not
    a regular file, whatever suffixes its name has. *)
Theorem exts_none_unless_regular_file fs self :
  path_is_file fs (resolve fs self) = Ok false →
  exts fs self = Ok None.
Proof. intros H. unfold exts, plain_path_is_symlink_attr. by rewrite H. Qed.

Lemma exts_none_unless_regular_file_witness :
  path_is_file fs_nothing (resolve fs_nothing data_tar_gz) = Ok false
  ∧ exts fs_nothing data_tar_gz = Ok None.
Proof.
  split; [reflexivity|].
  apply (exts_none_unless_regular_file fs_nothing data_tar_gz). reflexivity.
Defined.

Example exts_regular_file :
  exts fs_binary_files data_tar_gz = Ok (Some ".tar.gz")
  ∧ exts fs_binary_files song_ogg = Ok (Some ".ogg").
Proof. split; vm_compute; reflexivity. Qed.

Lemma loaded_reachable lines : reachable (loaded lines).
Proof. apply reach_load, reach_class_body. Qed.

Lemma load_times_reachable n globs : reachable (load_times n globs class_body).
Proof.
  induction n as [|n IH]; cbn [load_times].
  - apply reach_class_body.
  - by apply reach_load.
Qed.

(** C7.  In every state that loads can reach, [mime] returns [None] when
    the resolved extension is not a key of [_ext2mime_map], the MIME type
    itself when one is registered, and the list, in order, when two or
    more are; a key with no MIME type does not occur. *)
Theorem mime_scalar_list_or_none cls self :
  reachable cls →
  match _ext2mime_map cls !! extension cls self with
  | None => mime cls self = MimeNone
  | Some [] => False
  | Some [x] => mime cls self = MimeStr x
  | Some l => mime cls self = MimeList l ∧ 2 ≤ length l
  end.
Proof.
  intros Hr. unfold mime.
  destruct (_ext2mime_map cls !! extension cls self) as [l|] eqn:Hl; [|done].
  destruct (reachable_wf cls Hr _ _ Hl) as [Hne _].
  destruct l as [|x [|y l]]; cbn; [done|done|].
  split; [done|lia].
Qed.

Lemma mime_scalar_list_or_none_witness :
  reachable (loaded globs_ogg)
  ∧ mime (loaded globs_ogg) song_ogg
    = MimeList ["audio/ogg"; "audio/x-vorbis+ogg"; "video/x-theora+ogg"]
  ∧ mime (loaded globs_gz) data_tar_gz = MimeStr "application/gzip"
  ∧ mime (loaded globs_gz) notes_xyz = MimeNone.
Proof.
  split; [apply loaded_reachable|].
  pose proof (mime_scalar_list_or_none (loaded globs_ogg) song_ogg
                (loaded_reachable globs_ogg)) as Hogg.
  pose proof (mime_scalar_list_or_none (loaded globs_gz) data_tar_gz
                (loaded_reachable globs_gz)) as Hgz.
  pose proof (mime_scalar_list_or_none (loaded globs_gz) notes_xyz
                (loaded_reachable globs_gz)) as Hxyz.
  vm_compute in Hogg, Hgz, Hxyz. vm_compute.
  exact (conj (proj1 Hogg) (conj Hgz Hxyz)).
Defined.

(** The three cases of [mime] hold in any state of the class attributes;
    only a key bound to the empty list, which no load produces, falls
    outside them and gives the empty list back. *)
Lemma mime_cases cls self :
  mime cls self =
    match _ext2mime_map cls !! extension cls self with
    | None => MimeNone
    | Some [x] => MimeStr x
    | Some l => MimeList l
    end.
Proof.
  unfold mime. destruct (_ext2mime_map cls !! extension cls self) as [l|]; [|done].
  by destruct l as [|x [|y l]].
Qed.

(** C9.  In every state of the class attributes that any number of loads
    can reach, no list of [_ext2mime_map] holds the same MIME type twice. *)
Theorem ext2mime_lists_have_no_duplicates cls ext l :
  reachable cls →
  _ext2mime_map cls !! ext = Some l →
  NoDup l.
Proof. intros Hr Hl. by destruct (reachable_wf cls Hr ext l Hl). Qed.

Lemma ext2mime_lists_have_no_duplicates_witness :
  reachable (load_times 3 (Some globs_ogg) class_body)
  ∧ _ext2mime_map (load_times 3 (Some globs_ogg) class_body) !! ".ogg"
    = Some ["audio/ogg"; "audio/x-vorbis+ogg"; "video/x-theora+ogg"]
  ∧ NoDup ["audio/ogg"; "audio/x-vorbis+ogg"; "video/x-theora+ogg"].
Proof.
  split_and!.
  - apply load_times_reachable.
  - vm_compute. reflexivity.
  - apply (ext2mime_lists_have_no_duplicates
             (load_times 3 (Some globs_ogg) class_body) ".ogg").
    + apply load_times_reachable.
    + vm_compute. reflexivity.
Defined.

(** C5, as stated, fails.  For a regular file that the caller has no
    permission to read, with a sniffer that would raise [PermissionError]
    if it were called, [is_compressed] returns [False] and raises
    nothing. *)
Lemma is_compressed_access_denied_is_false :
  os_access fs_access_denied secret_gz F_R = false
  ∧ sniff_is_binary fs_access_denied (resolve fs_access_denied secret_gz)
    = Raise PermissionError
  ∧ is_compressed fs_access_denied (loaded globs_gz) secret_gz = Ok false
  ∧ ¬ raises (is_compressed fs_access_denied (loaded globs_gz) secret_gz).
Proof.
  split_and!; try reflexivity.
  intros [e He]. vm_compute in He. discriminate.
Qed.

(** C5, amended.  When the type checks on the resolved path return and
    [os.access] denies the read permission, [is_readable] is [False], the
    sniffer is not called, and [is_compressed] returns [False]; no access
    error is raised, whatever the sniffer would have done. *)
Theorem is_compressed_false_when_access_denied fs cls self f d :
  path_is_file fs (resolve fs self) = Ok f →
  path_is_dir fs (resolve fs self) = Ok d →
  os_access fs self (if d then D_RX else F_R) = false →
  is_readable fs self = Ok false
  ∧ is_binary fs self = Ok false
  ∧ is_compressed fs cls self = Ok false.
Proof.
  intros Hf Hd Ha.
  assert (is_readable fs self = Ok false) as Hr.
  { unfold is_readable. cbv zeta. rewrite Hf. cbn [bind].
    destruct f; cbn [bind]; rewrite Hd; cbn [bind].
    - by rewrite Ha.
    - destruct d; [by rewrite Ha|done]. }
  assert (is_binary fs self = Ok false) as Hb.
  { unfold is_binary. by rewrite Hr. }
  split_and!; [done|done|]. unfold is_compressed. by rewrite Hb.
Qed.

Lemma is_compressed_false_when_access_denied_witness :
  is_readable fs_access_denied secret_gz = Ok false
  ∧ is_binary fs_access_denied secret_gz = Ok false
  ∧ is_compressed fs_access_denied (loaded globs_gz) secret_gz = Ok false.
Proof.
  apply (is_compressed_false_when_access_denied
           fs_access_denied (loaded globs_gz) secret_gz true false);
    reflexivity.
Defined.

(** The resolvers return in every state: [extension] and [mime] are total,
    and [is_compressed] raises only what the collaborators behind
    [is_binary] raise. *)
Lemma is_compressed_returns fs cls self b :
  is_binary fs self = Ok b →
  is_compressed fs cls self
    = Ok (b && PyDict.contains (extension cls self) _decompress_cmd_map).
Proof. intros H. unfold is_compressed. rewrite H. by destruct b. Qed.

(** On a binary file whose resolved extension is not a key of
    [_ext2mime_map], the three MIME classifiers evaluate [x in None]. *)
Lemma mime_classifiers_raise_on_none fs cls self :
  is_binary fs self = Ok true →
  _ext2mime_map cls !! extension cls self = None →
  is_video fs cls self = Raise TypeError
  ∧ is_audio fs cls self = Raise TypeError
  ∧ is_font fs cls self = Raise TypeError.
Proof.
  intros Hb Hl. unfold is_video, is_audio, is_font.
  by rewrite Hb, mime_cases, Hl.
Qed.

(** C3: the code at the failing input.  After a load, for the readable
    binary file [notes.xyz], whose suffix is not registered, [extension]
    returns the empty string, [mime] returns [None], [is_compressed]
    returns [False], and [is_video], [is_audio] and [is_font] raise
    [TypeError]. *)
Theorem mime_classifiers_raise_on_unregistered_extension :
  extension (loaded globs_gz) notes_xyz = EmptyString
  ∧ mime (loaded globs_gz) notes_xyz = MimeNone
  ∧ is_compressed fs_binary_files (loaded globs_gz) notes_xyz = Ok false
  ∧ is_video fs_binary_files (loaded globs_gz) notes_xyz = Raise TypeError
  ∧ is_audio fs_binary_files (loaded globs_gz) notes_xyz = Raise TypeError
  ∧ is_font fs_binary_files (loaded globs_gz) notes_xyz = Raise TypeError.
Proof. split_and!; vm_compute; reflexivity. Qed.

(** On a binary file whose resolved extension has two or more MIME types,
    the classifiers test whether the stripped extension or the word is
    equal to an element of the list. *)
Lemma is_audio_on_mime_list fs cls self l :
  is_binary fs self = Ok true →
  _ext2mime_map cls !! extension cls self = Some l →
  2 ≤ length l →
  is_audio fs cls self
    = Ok (PyList.contains (PyStr.strip "." (extension cls self)) l
          || PyList.contains "audio" l).
Proof.
  intros Hb Hl Hlen. unfold is_audio. rewrite Hb, mime_cases, Hl.
  destruct l as [|x [|y l]]; cbn in Hlen; try lia.
  cbn [bind py_in].
  by destruct (PyList.contains (PyStr.strip "." (extension cls self)) (x :: y :: l)).
Qed.

(** C4: the code at the failing input.  For the readable binary file
    [song.ogg], whose extension has three MIME types, [audio] is a
    substring of the first of them and [ogg] of all three, yet [is_audio]
    returns [False]; likewise [video] is a substring of the third and
    [is_video] returns [False]. *)
Theorem is_audio_false_on_mime_list :
  mime (loaded globs_ogg) song_ogg
    = MimeList ["audio/ogg"; "audio/x-vorbis+ogg"; "video/x-theora+ogg"]
  ∧ PyStr.contains "audio" "audio/ogg" = true
  ∧ PyStr.contains (PyStr.strip "." (extension (loaded globs_ogg) song_ogg))
                   "audio/ogg" = true
  ∧ PyStr.contains "video" "video/x-theora+ogg" = true
  ∧ is_binary fs_binary_files song_ogg = Ok true
  ∧ is_audio fs_binary_files (loaded globs_ogg) song_ogg = Ok false
  ∧ is_video fs_binary_files (loaded globs_ogg) song_ogg = Ok false.
Proof. split_and!; vm_compute; reflexivity. Qed.

Example is_audio_scalar_mime :
  is_audio fs_binary_files (loaded ["audio/mpeg:*.mp3"]) (mkPath "/tmp" "a.mp3")
  = Ok true.
Proof. vm_compute. reflexivity. Qed.

(** C2: the code at the failing input.  After one load of a file with the
    line [text/plain:*.txt], [text/plain] lists [.txt] once; after a second
    load of the same file it lists [.txt] twice, so the class attributes
    differ, while [_ext2mime_map] is the same. *)
Theorem second_load_duplicates_mime2ext :
  fst (_load (Some globs_txt) class_body) = Ok (loaded globs_txt)
  ∧ _mime2ext_map (load_times 1 (Some globs_txt) class_body) !! "text/plain"
    = Some [".txt"]
  ∧ _mime2ext_map (load_times 2 (Some globs_txt) class_body) !! "text/plain"
    = Some [".txt"; ".txt"]
  ∧ _ext2mime_map (load_times 2 (Some globs_txt) class_body)
    = _ext2mime_map (load_times 1 (Some globs_txt) class_body)
  ∧ load_times 2 (Some globs_txt) class_body
    ≠ load_times 1 (Some globs_txt) class_body.
Proof.
  split_and!; try (vm_compute; reflexivity).
  intros H.
  apply (f_equal (λ cls, _mime2ext_map cls !! "text/plain")) in H.
  vm_compute in H. discriminate.
Qed.

Lemma format_other a s arg :
  a ≠ "{"%char → PyStr.format (String a s) arg = String a (PyStr.format s arg).
Proof.
  intros Ha.
  destruct a as [[] [] [] [] [] [] [] []]; try reflexivity.
  done.
Qed.

Lemma contains_brace_cons a s :
  PyStr.contains "{" (String a s) = false →
  a ≠ "{"%char ∧ PyStr.contains "{" s = false.
Proof.
  cbn [PyStr.contains]. intros H. apply orb_false_iff in H as [Hp Hc].
  split; [|done]. intros ->. cbn in Hp. by destruct s.
Qed.

Lemma format_placeholder pre post arg :
  PyStr.contains "{" pre = false →
  PyStr.format (pre +:+ "{}" +:+ post) arg = pre +:+ arg +:+ post.
Proof.
  induction pre as [|a pre IH]; intros H; [done|].
  apply contains_brace_cons in H as [Ha Hc].
  rewrite (append_cons a pre ("{}" +:+ post)), (append_cons a pre (arg +:+ post)).
  rewrite format_other by done. by rewrite IH.
Qed.

Lemma decompress_cmd_gz :
  _decompress_cmd_map !! ".gz" = Some ("unpigz -p4 " +:+ dq +:+ "{}" +:+ dq +:+ " ").
Proof. vm_compute. reflexivity. Qed.

Lemma decompress_cmd_ace : _decompress_cmd_map !! ".ace" = Some EmptyString.
Proof. vm_compute. reflexivity. Qed.

Lemma decompress_cmd_tar_bz :
  _decompress_cmd_map !! ".tar.bz"
  = Some "tar   --use-compress-program=pbzip2 -xf".
Proof. vm_compute. reflexivity. Qed.

(** C8.  [decompression_command] on [.gz] and [/tmp/a.gz] returns the
    stored template with [/tmp/a.gz] in the place of the placeholder; on
    [.ace], whose template is empty, it returns absence for every path; in
    general an extension with a non-empty template gives the template with
    the path substituted (for a template [pre{}post] the command
    [pre path post]), and an extension that is not a key or has an empty
    template gives absence. *)
Theorem decompression_command_substitutes_path :
  _decompress_cmd_map !! ".gz" = Some ("unpigz -p4 " +:+ dq +:+ "{}" +:+ dq +:+ " ")
  ∧ decompression_command ".gz" "/tmp/a.gz"
    = Some ("unpigz -p4 " +:+ dq +:+ "/tmp/a.gz" +:+ dq +:+ " ")
  ∧ _decompress_cmd_map !! ".ace" = Some EmptyString
  ∧ (∀ path, decompression_command ".ace" path = None)
  ∧ (∀ ext template path,
       _decompress_cmd_map !! ext = Some template →
       template ≠ EmptyString →
       decompression_command ext path = Some (PyStr.format template path))
  ∧ (∀ ext pre post path,
       _decompress_cmd_map !! ext = Some (pre +:+ "{}" +:+ post) →
       PyStr.contains "{" pre = false →
       decompression_command ext path = Some (pre +:+ path +:+ post))
  ∧ (∀ ext path,
       _decompress_cmd_map !! ext = None
       ∨ _decompress_cmd_map !! ext = Some EmptyString →
       decompression_command ext path = None).
Proof.
  split_and!.
  - apply decompress_cmd_gz.
  - unfold decompression_command. rewrite decompress_cmd_gz.
    vm_compute. reflexivity.
  - apply decompress_cmd_ace.
  - intros path. unfold decompression_command.
    by rewrite decompress_cmd_ace.
  - intros ext template path Hl Hne. unfold decompression_command.
    rewrite Hl. destruct template as [|c t]; [congruence|reflexivity].
  - intros ext pre post path Hl Hpre. unfold decompression_command.
    rewrite Hl, format_placeholder by done.
    destruct pre as [|c pre]; reflexivity.
  - intros ext path [Hl|Hl]; unfold decompression_command; by rewrite Hl.
Qed.

Lemma decompression_command_substitutes_path_witness :
  decompression_command ".tar.gz" "/tmp/a.tar.gz"
    = Some ("tar -xzf " +:+ dq +:+ "/tmp/a.tar.gz" +:+ dq)
  ∧ decompression_command ".zipx" "/tmp/a.zipx" = None
  ∧ decompression_command ".xyz" "/tmp/a.xyz" = None.
Proof.
  destruct decompression_command_substitutes_path
    as (_ & _ & _ & _ & Hsome & _ & Hnone).
  split_and!.
  - apply (Hsome ".tar.gz" ("tar -xzf " +:+ dq +:+ "{}" +:+ dq) "/tmp/a.tar.gz").
    + vm_compute. reflexivity.
    + discriminate.
  - apply (Hnone ".zipx" "/tmp/a.zipx"). right. vm_compute. reflexivity.
  - apply (Hnone ".xyz" "/tmp/a.xyz"). left. vm_compute. reflexivity.
Defined.

(** The template of [.tar.bz] is the one non-empty template without a
    placeholder: the command built from it does not mention the path. *)
Example decompression_command_tar_bz path :
  decompression_command ".tar.bz" path
  = Some "tar   --use-compress-program=pbzip2 -xf".
Proof.
  unfold decompression_command. by rewrite decompress_cmd_tar_bz.
Qed.

Example templates_without_placeholder :
  map fst (List.filter (λ kv, PyStr.truthy (snd kv)
                              && negb (PyStr.contains "{}" (snd kv)))
                       _decompress_cmd_items)
  = [".tar.bz"].
Proof. vm_compute. reflexivity. Qed.

Example decompress_cmd_keys_distinct : NoDup (map fst _decompress_cmd_items).
Proof. apply (bool_decide_unpack _). vm_compute. reflexivity. Qed.

(** * Further properties of the loader *)

Lemma split_length sep s : length (PyStr.split sep s) = S (count_char sep s).
Proof.
  induction s as [|a s IH]; [done|]. cbn [PyStr.split count_char].
  destruct (Ascii.eqb a sep); cbn [length]; [by rewrite IH|].
  destruct (PyStr.split sep s) as [|f fs]; cbn [length] in *; lia.
Qed.

Lemma split_no_sep sep s : count_char sep s = 0 → PyStr.split sep s = [s].
Proof.
  induction s as [|a s IH]; [done|]. cbn [PyStr.split count_char].
  destruct (Ascii.eqb a sep); [done|]. intros H. by rewrite IH.
Qed.

Lemma split_one_sep sep (a b : string) :
  count_char sep a = 0 → count_char sep b = 0 →
  PyStr.split sep (a +:+ String sep b) = [a; b].
Proof.
  intros Ha Hb. induction a as [|x a IH].
  - change (EmptyString +:+ String sep b) with (String sep b).
    cbn [PyStr.split]. by rewrite Ascii.eqb_refl, split_no_sep.
  - rewrite append_cons. cbn [PyStr.split count_char] in *.
    destruct (Ascii.eqb x sep); [done|]. by rewrite IH.
Qed.

Lemma line_entry_malformed ln :
  line_entry ln = Malformed ↔
  PyStr.truthy ln = true ∧ PyStr.startswith "#" ln = false
  ∧ count_char ":" ln ≠ 1.
Proof.
  unfold line_entry. pose proof (split_length ":" ln) as Hlen.
  destruct (PyStr.truthy ln); cbn [andb]; [|by intuition].
  destruct (PyStr.startswith "#" ln); cbn [negb]; [by intuition|].
  destruct (PyStr.split ":" ln) as [|mime [|ext [|x l]]]; cbn [length] in Hlen.
  - split; [intros _; split_and!; [done|done|lia]|done].
  - split; [intros _; split_and!; [done|done|lia]|done].
  - split; [done|]. intros (_ & _ & H). lia.
  - split; [intros _; split_and!; [done|done|lia]|done].
Qed.

Lemma load_lines_app l1 l2 cls :
  load_lines (l1 ++ l2) cls =
    match load_lines l1 cls with
    | (Ok _, cls') => load_lines l2 cls'
    | (Raise e, cls') => (Raise e, cls')
    end.
Proof.
  revert cls. induction l1 as [|ln l1 IH]; intros cls; [done|].
  cbn [app load_lines]. by destruct (load_line ln cls) as [[[]|e] cls'].
Qed.

Lemma load_lines_returns lines cls :
  fst (load_lines lines cls) = Ok tt ↔
  Forall (λ ln, line_entry ln ≠ Malformed) lines.
Proof.
  revert cls. induction lines as [|ln rest IH]; intros cls.
  - split; [constructor|done].
  - cbn [load_lines]. rewrite load_line_unfold, Forall_cons.
    destruct (line_entry ln) as [| |mime ext]; rewrite ?IH; by intuition.
Qed.

Lemma _load_some lines cls cls' :
  _load (Some lines) cls = (Ok cls', cls') ↔ load_lines lines cls = (Ok tt, cls').
Proof.
  cbn [_load]. destruct (load_lines lines cls) as [[[]|e] c]; split; congruence.
Qed.

Lemma _load_returns_state globs cls r cls' :
  _load globs cls = (Ok r, cls') → r = cls'.
Proof.
  destruct globs as [lines|]; cbn [_load]; [|congruence].
  destruct (load_lines lines cls) as [[[]|e] c]; congruence.
Qed.

(** X1.  A blank line and a line that starts with [#] are skipped; any
    other line is accepted exactly when it holds one colon. *)
Theorem line_accepted_iff_one_colon ln cls :
  PyStr.truthy ln = true →
  PyStr.startswith "#" ln = false →
  (fst (load_line ln cls) = Ok tt ↔ count_char ":" ln = 1)
  ∧ (fst (load_line ln cls) = Raise ValueError ↔ count_char ":" ln ≠ 1).
Proof.
  intros Ht Hc. rewrite load_line_unfold.
  pose proof (line_entry_malformed ln) as Hm.
  destruct (line_entry ln) as [| |mime ext] eqn:He; cbn [fst].
  - unfold line_entry in He. rewrite Ht, Hc in He. cbn in He.
    by destruct (PyStr.split ":" ln) as [|? [|? [|? ?]]].
  - destruct Hm as [Hm _]. destruct (Hm eq_refl) as (_ & _ & Hn).
    split; split; try done.
  - assert (count_char ":" ln = 1) as H1.
    { destruct (decide (count_char ":" ln = 1)) as [|Hn]; [done|].
      destruct Hm as [_ Hm]. by discriminate Hm. }
    split; split; try done.
Qed.

Lemma line_accepted_iff_one_colon_witness :
  fst (load_line "text/plain:*.txt" class_body) = Ok tt
  ∧ fst (load_line "50:text/plain:*.txt" class_body) = Raise ValueError.
Proof.
  split.
  - apply (line_accepted_iff_one_colon "text/plain:*.txt" class_body);
      reflexivity.
  - apply (line_accepted_iff_one_colon "50:text/plain:*.txt" class_body);
      [reflexivity|reflexivity|]. vm_compute. lia.
Defined.

Lemma exts_of_elem mime ext ln lines :
  ln ∈ lines → line_entry ln = Entry mime ext → ext ∈ exts_of mime lines.
Proof.
  intros Hin He. induction lines as [|ln' rest IH]; [by inversion Hin|].
  cbn [exts_of]. apply elem_of_cons in Hin as [<-|Hin].
  - rewrite He. rewrite decide_True by done. apply elem_of_cons. by left.
  - specialize (IH Hin). destruct (line_entry ln') as [| |m' e']; try done.
    destruct (decide (m' = mime)); [|done]. apply elem_of_cons. by right.
Qed.

Lemma listed_exts_elem m2e mime ext :
  ext ∈ listed_exts m2e mime ↔ ∃ l, m2e !! mime = Some l ∧ ext ∈ l.
Proof.
  unfold listed_exts. destruct (m2e !! mime) as [l|]; cbn.
  - split; [by eauto|]. by intros (l' & [= <-] & H).
  - split; [by intros H%elem_of_nil|]. by intros (l' & ? & _).
Qed.

Lemma glob_line_entry mime pattern :
  count_char ":" mime = 0 → count_char ":" pattern = 0 →
  PyStr.startswith "#" mime = false →
  line_entry (mime +:+ ":" +:+ pattern) = Entry mime (PyStr.strip "*" pattern).
Proof.
  intros Hm Hp Hc. unfold line_entry.
  change (mime +:+ ":" +:+ pattern) with (mime +:+ String ":" pattern).
  rewrite split_one_sep by done.
  destruct mime as [|a mime].
  - change (EmptyString +:+ String ":" pattern) with (String ":" pattern).
    reflexivity.
  - rewrite append_cons. cbn [PyStr.truthy andb].
    unfold PyStr.startswith in *. cbn [String.prefix] in *.
    destruct (ascii_dec "#" a); [by destruct mime|reflexivity].
Qed.

(** X2.  Round trip of a load that returns: for every line [mime:pattern]
    of the file (one colon, not a comment), the pattern stripped of its
    stars is afterwards a key of [_ext2mime_map] whose list holds [mime],
    and [mime] is a key of [_mime2ext_map] whose list holds the stripped
    pattern. *)
Theorem load_registers_both_ways lines cls cls' mime pattern :
  _load (Some lines) cls = (Ok cls', cls') →
  (mime +:+ ":" +:+ pattern) ∈ lines →
  count_char ":" mime = 0 → count_char ":" pattern = 0 →
  PyStr.startswith "#" mime = false →
  (∃ l, _ext2mime_map cls' !! PyStr.strip "*" pattern = Some l ∧ mime ∈ l)
  ∧ (∃ l, _mime2ext_map cls' !! mime = Some l ∧ PyStr.strip "*" pattern ∈ l).
Proof.
  intros Hload Hin Hm Hp Hc. apply _load_some in Hload.
  pose proof (glob_line_entry mime pattern Hm Hp Hc) as He.
  split.
  - pose proof (load_lines_settles _ _ _ Hload) as Hs.
    rewrite Forall_forall in Hs. specialize (Hs _ Hin).
    unfold line_settled in Hs. by rewrite He in Hs.
  - apply listed_exts_elem.
    rewrite (load_lines_mime2ext _ _ _ mime Hload). apply elem_of_app. right.
    by eapply exts_of_elem.
Qed.

Lemma load_registers_both_ways_witness :
  (∃ l, _ext2mime_map (loaded globs_gz) !! ".tar.gz" = Some l
        ∧ "application/x-compressed-tar" ∈ l)
  ∧ (∃ l, _mime2ext_map (loaded globs_gz) !! "application/x-compressed-tar"
          = Some l ∧ ".tar.gz" ∈ l).
Proof.
  apply (load_registers_both_ways globs_gz class_body (loaded globs_gz)
           "application/x-compressed-tar" "*.tar.gz").
  - vm_compute. reflexivity.
  - apply elem_of_cons. right. apply elem_of_cons. left. reflexivity.
  - reflexivity.
  - reflexivity.
  - reflexivity.
Defined.

(** X3.  A line that is neither blank nor a comment and does not hold
    exactly one colon makes [_load] raise [ValueError]; the entries of the
    lines before it stay in the tables and no line after it is read. *)
Theorem load_malformed_line_raises before ln after cls cls1 :
  _load (Some before) cls = (Ok cls1, cls1) →
  PyStr.truthy ln = true →
  PyStr.startswith "#" ln = false →
  count_char ":" ln ≠ 1 →
  _load (Some (before ++ ln :: after)) cls = (Raise ValueError, cls1).
Proof.
  intros Hb Ht Hc Hn. apply _load_some in Hb.
  assert (line_entry ln = Malformed) as Hm by by apply line_entry_malformed.
  cbn [_load]. rewrite load_lines_app, Hb. cbn [load_lines].
  by rewrite load_line_unfold, Hm.
Qed.

Lemma load_malformed_line_raises_witness :
  _load (Some (globs_gz ++ "no colon here" :: globs_images)) class_body
  = (Raise ValueError, loaded globs_gz).
Proof.
  apply (load_malformed_line_raises globs_gz "no colon here" globs_images
           class_body (loaded globs_gz)).
  - vm_compute. reflexivity.
  - reflexivity.
  - reflexivity.
  - vm_compute. lia.
Defined.

(** X4.  Once [_load] has returned on a file, calling it again on the same
    file returns again and leaves [_ext2mime_map] as it was. *)
Theorem load_again_keeps_ext2mime lines cls cls1 :
  _load (Some lines) cls = (Ok cls1, cls1) →
  ∃ cls2, _load (Some lines) cls1 = (Ok cls2, cls2)
          ∧ _ext2mime_map cls2 = _ext2mime_map cls1.
Proof.
  intros H. apply _load_some in H.
  destruct (reload_keeps_ext2mime _ _ _ H) as [Hok Heq].
  exists (snd (load_lines lines cls1)). split; [|done].
  apply _load_some. destruct (load_lines lines cls1) as [r c]; cbn in *.
  by subst.
Qed.

Lemma load_again_keeps_ext2mime_witness :
  ∃ cls2, _load (Some globs_ogg) (loaded globs_ogg) = (Ok cls2, cls2)
          ∧ _ext2mime_map cls2 = _ext2mime_map (loaded globs_ogg).
Proof.
  apply (load_again_keeps_ext2mime globs_ogg class_body (loaded globs_ogg)).
  vm_compute. reflexivity.
Defined.

Lemma load_times_S n globs cls :
  load_times (S n) globs cls = snd (_load globs (load_times n globs cls)).
Proof. reflexivity. Qed.

Lemma _load_snd lines cls :
  snd (_load (Some lines) cls) = snd (load_lines lines cls).
Proof. cbn [_load]. by destruct (load_lines lines cls) as [[[]|e] c]. Qed.

(** X5.  When the file has no malformed line, [n] loads of it from the
    empty tables leave under every MIME type the extensions that the file
    gives it, in file order, [n] times over. *)
Theorem repeated_loads_repeat_mime2ext n lines cls1 mime :
  _load (Some lines) class_body = (Ok cls1, cls1) →
  listed_exts (_mime2ext_map (load_times n (Some lines) class_body)) mime
  = times n (exts_of mime lines).
Proof.
  intros H1. apply _load_some in H1.
  assert (Forall (λ ln, line_entry ln ≠ Malformed) lines) as Hok.
  { apply (load_lines_returns lines class_body). by rewrite H1. }
  induction n as [|n IH]; [done|].
  rewrite load_times_S, _load_snd. cbn [times].
  set (c := load_times n (Some lines) class_body) in *.
  pose proof (proj2 (load_lines_returns lines c) Hok) as Hr.
  destruct (load_lines lines c) as [r c'] eqn:Hc. cbn in Hr. subst r.
  cbn [snd]. rewrite (load_lines_mime2ext _ _ _ mime Hc), IH.
  clear. induction n as [|n IHn]; cbn [times]; [by rewrite app_nil_r|].
  by rewrite <- app_assoc, IHn.
Qed.

Lemma repeated_loads_repeat_mime2ext_witness :
  listed_exts (_mime2ext_map (load_times 3 (Some globs_txt) class_body))
              "text/plain"
  = times 3 (exts_of "text/plain" globs_txt).
Proof.
  apply (repeated_loads_repeat_mime2ext 3 globs_txt (loaded globs_txt)).
  vm_compute. reflexivity.
Defined.

(** Whatever holds of the tables and is kept by the registration of one
    entry is kept by [_load], returning or raising. *)
Lemma _load_preserves (P : registry → Prop) :
  (∀ cls mime ext,
     P cls →
     P (mkRegistry (add_ext2mime mime ext (_ext2mime_map cls))
                   (add_mime2ext mime ext (_mime2ext_map cls)))) →
  ∀ globs cls, P cls → P (snd (_load globs cls)).
Proof.
  intros Hstep [lines|] cls HP; [|done]. rewrite _load_snd.
  revert cls HP. induction lines as [|ln rest IH]; intros cls HP; [done|].
  cbn [load_lines]. rewrite load_line_unfold.
  destruct (line_entry ln) as [| |mime ext]; [by apply IH|done|].
  by apply IH, Hstep.
Qed.

Lemma add_ext2mime_listed_iff mime ext mime' ext' e2m :
  listed mime' ext' (add_ext2mime mime ext e2m)
  ↔ (mime' = mime ∧ ext' = ext) ∨ listed mime' ext' e2m.
Proof.
  split.
  - unfold listed, add_ext2mime, PyList.contains.
    destruct (e2m !! ext) as [l|] eqn:Hl.
    + case_bool_decide as Hin; [by right|].
      destruct (decide (ext = ext')) as [<-|Hne].
      * rewrite lookup_insert_eq. intros (l' & [= <-] & H).
        apply elem_of_app in H as [H|H%list_elem_of_singleton]; [|by left].
        right. by eauto.
      * rewrite lookup_insert_ne by done. by right.
    + destruct (decide (ext = ext')) as [<-|Hne].
      * rewrite lookup_insert_eq.
        intros (l' & [= <-] & H%list_elem_of_singleton). by left.
      * rewrite lookup_insert_ne by done. by right.
  - intros [[-> ->]|H]; [apply add_ext2mime_listed|by apply add_ext2mime_mono].
Qed.

Lemma add_mime2ext_elem_iff mime ext mime' ext' m2e :
  ext' ∈ listed_exts (add_mime2ext mime ext m2e) mime'
  ↔ (mime' = mime ∧ ext' = ext) ∨ ext' ∈ listed_exts m2e mime'.
Proof.
  rewrite add_mime2ext_listed. destruct (decide (mime = mime')) as [<-|Hne].
  - rewrite elem_of_app, list_elem_of_singleton. split.
    + intros [H|H]; [by right|by left].
    + intros [[_ ->]|H]; [by right|by left].
  - split; [by right|]. by intros [[-> _]|H].
Qed.

Lemma reachable_tables_agree cls :
  reachable cls →
  ∀ mime ext, listed mime ext (_ext2mime_map cls)
              ↔ ext ∈ listed_exts (_mime2ext_map cls) mime.
Proof.
  induction 1 as [|globs cls _ IH].
  - intros mime ext. unfold listed, listed_exts. cbn. rewrite !lookup_empty.
    cbn. split; [by intros (l & ? & _)|by intros H%elem_of_nil].
  - apply (_load_preserves
             (λ c, ∀ mime ext, listed mime ext (_ext2mime_map c)
                               ↔ ext ∈ listed_exts (_mime2ext_map c) mime));
      [|done].
    intros c m e Hc mime ext. cbn [_ext2mime_map _mime2ext_map].
    by rewrite add_ext2mime_listed_iff, add_mime2ext_elem_iff, Hc.
Qed.

(** X6.  In every state that loads can reach, the two tables are each
    other's inverse: [mime] is listed under [ext] in [_ext2mime_map]
    exactly when [ext] is listed under [mime] in [_mime2ext_map]. *)
Theorem tables_are_inverse cls mime ext :
  reachable cls →
  (∃ l, _ext2mime_map cls !! ext = Some l ∧ mime ∈ l)
  ↔ (∃ l, _mime2ext_map cls !! mime = Some l ∧ ext ∈ l).
Proof.
  intros Hr. rewrite <- (listed_exts_elem (_mime2ext_map cls) mime ext).
  apply (reachable_tables_agree cls Hr mime ext).
Qed.

Lemma tables_are_inverse_witness :
  (∃ l, _ext2mime_map (loaded globs_ogg) !! ".ogg" = Some l
        ∧ "video/x-theora+ogg" ∈ l)
  ↔ (∃ l, _mime2ext_map (loaded globs_ogg) !! "video/x-theora+ogg" = Some l
          ∧ ".ogg" ∈ l).
Proof.
  apply (tables_are_inverse (loaded globs_ogg) "video/x-theora+ogg" ".ogg").
  apply reach_load, reach_class_body.
Defined.

(** X7.  A load never takes anything out of the tables, whether it returns
    or raises: a MIME type listed under an extension stays listed, and an
    extension listed under a MIME type stays listed. *)
Theorem load_never_forgets globs cls mime ext :
  ((∃ l, _ext2mime_map cls !! ext = Some l ∧ mime ∈ l) →
   ∃ l, _ext2mime_map (snd (_load globs cls)) !! ext = Some l ∧ mime ∈ l)
  ∧ ((∃ l, _mime2ext_map cls !! mime = Some l ∧ ext ∈ l) →
     ∃ l, _mime2ext_map (snd (_load globs cls)) !! mime = Some l ∧ ext ∈ l).
Proof.
  split.
  - apply (_load_preserves (λ c, listed mime ext (_ext2mime_map cls) →
                                 listed mime ext (_ext2mime_map c)));
      [|done].
    intros c m e Hc H. cbn [_ext2mime_map]. by apply add_ext2mime_mono, Hc.
  - rewrite <- (listed_exts_elem (_mime2ext_map cls) mime ext).
    rewrite <- (listed_exts_elem (_mime2ext_map (snd (_load globs cls))) mime ext).
    apply (_load_preserves
             (λ c, ext ∈ listed_exts (_mime2ext_map cls) mime →
                   ext ∈ listed_exts (_mime2ext_map c) mime));
      [|done].
    intros c m e Hc H. cbn [_mime2ext_map].
    apply add_mime2ext_elem_iff. right. by apply Hc.
Qed.

Lemma load_never_forgets_witness :
  ∃ l, _ext2mime_map (snd (_load (Some globs_images) (loaded globs_gz))) !! ".gz"
       = Some l ∧ "application/gzip" ∈ l.
Proof.
  apply (load_never_forgets (Some globs_images) (loaded globs_gz)
           "application/gzip" ".gz").
  exists ["application/gzip"]. split; [vm_compute; reflexivity|].
  apply elem_of_cons. by left.
Defined.

(** * Further properties of the resolvers and classifiers *)

Lemma suffixes_start_with_dot self :
  Forall (λ s, ∃ t, s = String "." t) (Pathlib.suffixes self).
Proof.
  unfold Pathlib.suffixes. destruct (PyStr.endswith "." (name self)); [constructor|].
  apply Forall_forall. intros s Hs. apply list_elem_of_In, in_map_iff in Hs.
  destruct Hs as (t & <- & _). by exists t.
Qed.

Lemma join_nil_iff l :
  Forall (λ s, ∃ t, s = String "."%char t) l →
  PyStr.join l = EmptyString ↔ l = [].
Proof.
  intros Hl. split; [|by intros ->].
  destruct l as [|s l]; [done|]. rewrite join_cons.
  inversion Hl as [|? ? [t ->] _]; subst. by rewrite append_cons.
Qed.

Lemma filter_nil_iff {A} (f : A → bool) l :
  List.filter f l = [] ↔ Forall (λ x, f x = false) l.
Proof.
  split; [|apply filter_all_false].
  induction l as [|x l IH]; cbn; [constructor|].
  destruct (f x) eqn:Hx; [done|]. intros H. constructor; auto.
Qed.

Lemma Forall_filter_keep {A} (P : A → Prop) (f : A → bool) l :
  Forall P l → Forall P (List.filter f l).
Proof.
  induction 1 as [|x l Hx _ IH]; cbn; [constructor|].
  destruct (f x); [by constructor|done].
Qed.

(** X8.  [extension] returns the empty string exactly when no suffix of
    the file name is by itself a key of [_ext2mime_map]. *)
Theorem extension_empty_iff_no_suffix_registered cls self :
  extension cls self = EmptyString
  ↔ Forall (λ s, registered cls s = false) (Pathlib.suffixes self).
Proof.
  rewrite extension_filter, join_nil_iff, filter_nil_iff; [done|].
  apply Forall_filter_keep, suffixes_start_with_dot.
Qed.

Lemma load_times_none n cls : load_times n None cls = cls.
Proof. induction n as [|n IH]; [done|]. cbn [load_times]. by rewrite IH. Qed.

Lemma decompress_cmd_empty_key :
  PyDict.contains EmptyString _decompress_cmd_map = false.
Proof. vm_compute. reflexivity. Qed.

(** X9.  When [/usr/share/mime/globs] is not a regular file, however often
    [_load] has run: [extension] is the empty string and [mime] is [None]
    for every path, [is_compressed] never returns [True], and [is_video],
    [is_audio] and [is_font] raise [TypeError] on every binary file. *)
Theorem without_globs_file n fs self :
  extension (load_times n None class_body) self = EmptyString
  ∧ mime (load_times n None class_body) self = MimeNone
  ∧ is_compressed fs (load_times n None class_body) self ≠ Ok true
  ∧ (is_binary fs self = Ok true →
     is_video fs (load_times n None class_body) self = Raise TypeError
     ∧ is_audio fs (load_times n None class_body) self = Raise TypeError
     ∧ is_font fs (load_times n None class_body) self = Raise TypeError).
Proof.
  rewrite load_times_none.
  assert (extension class_body self = EmptyString) as He.
  { apply extension_empty_iff_no_suffix_registered, Forall_forall.
    intros s _. unfold registered, PyDict.contains. cbn.
    by rewrite lookup_empty. }
  assert (_ext2mime_map class_body !! extension class_body self = None) as Hl.
  { cbn. by rewrite lookup_empty. }
  split_and!; [done| | |].
  - by rewrite mime_cases, Hl.
  - unfold is_compressed. destruct (is_binary fs self) as [[]|e]; cbn [bind];
      [|done|done].
    by rewrite He, decompress_cmd_empty_key.
  - intros Hb. by apply mime_classifiers_raise_on_none.
Qed.

Lemma without_globs_file_witness :
  is_video fs_binary_files (load_times 2 None class_body) data_tar_gz
  = Raise TypeError.
Proof.
  destruct (without_globs_file 2 fs_binary_files data_tar_gz)
    as (_ & _ & _ & H).
  apply H. reflexivity.
Defined.

(** X10.  The three MIME classifiers are not exclusive: on a binary file
    with one registered MIME type in which the resolved extension, dots
    stripped, occurs, [is_video], [is_audio] and [is_font] are all
    [True]. *)
Theorem mime_classifiers_all_true fs cls self m :
  is_binary fs self = Ok true →
  _ext2mime_map cls !! extension cls self = Some [m] →
  PyStr.contains (PyStr.strip "." (extension cls self)) m = true →
  is_video fs cls self = Ok true
  ∧ is_audio fs cls self = Ok true
  ∧ is_font fs cls self = Ok true.
Proof.
  intros Hb Hl Hc. unfold is_video, is_audio, is_font.
  rewrite Hb, mime_cases, Hl. cbn [bind py_in]. by rewrite Hc.
Qed.

Lemma mime_classifiers_all_true_witness :
  is_video fs_binary_files (loaded ["audio/ogg:*.ogg"]) song_ogg = Ok true
  ∧ is_audio fs_binary_files (loaded ["audio/ogg:*.ogg"]) song_ogg = Ok true
  ∧ is_font fs_binary_files (loaded ["audio/ogg:*.ogg"]) song_ogg = Ok true.
Proof.
  apply (mime_classifiers_all_true fs_binary_files (loaded ["audio/ogg:*.ogg"])
           song_ogg "audio/ogg").
  - reflexivity.
  - vm_compute. reflexivity.
  - vm_compute. reflexivity.
Defined.

Lemma replace_empty_nil s : PyStrMore.replace_empty EmptyString s = s.
Proof.
  induction s as [|a s IH]; [done|]. cbn [PyStrMore.replace_empty].
  change (EmptyString +:+ ?x) with x. by rewrite IH.
Qed.

Lemma truthy_or_empty s : (if PyStr.truthy s then s else EmptyString) = s.
Proof. by destruct s. Qed.

Lemma is_readable_missing fs self :
  path_is_file fs (resolve fs self) = Ok false →
  path_is_dir fs (resolve fs self) = Ok false →
  is_readable fs self = Ok false.
Proof. intros Hf Hd. unfold is_readable. cbv zeta. by rewrite Hf, Hd. Qed.

(** X11.  A path that after resolution is neither a regular file nor a
    directory (a missing path, for one) is reported unreadable and
    unwritable, every classifier returns [False] without asking the
    sniffer or the tables, [exts] is [None], [stem] is the whole name with
    its suffixes, and [size] raises [PermissionError]. *)
Theorem missing_path_answers fs sfs cls self :
  path_is_file fs (resolve fs self) = Ok false →
  path_is_dir fs (resolve fs self) = Ok false →
  is_readable fs self = Ok false
  ∧ is_writable fs self = Ok false
  ∧ is_binary fs self = Ok false
  ∧ is_compressed fs cls self = Ok false
  ∧ is_video fs cls self = Ok false
  ∧ is_audio fs cls self = Ok false
  ∧ is_font fs cls self = Ok false
  ∧ exts fs self = Ok None
  ∧ stem fs self = Ok (name self)
  ∧ size fs sfs self = Raise PermissionError.
Proof.
  intros Hf Hd.
  pose proof (is_readable_missing fs self Hf Hd) as Hr.
  assert (is_binary fs self = Ok false) as Hb.
  { unfold is_binary. by rewrite Hr. }
  assert (exts fs self = Ok None) as He.
  { unfold exts, plain_path_is_symlink_attr. by rewrite Hf. }
  split_and!; try done.
  - unfold is_writable. cbv zeta. by rewrite Hf, Hd.
  - unfold is_compressed. by rewrite Hb.
  - unfold is_video. by rewrite Hb.
  - unfold is_audio. by rewrite Hb.
  - unfold is_font. by rewrite Hb.
  - unfold stem. cbv zeta. rewrite He. cbn [bind default PyStrMore.replace].
    by rewrite replace_empty_nil, truthy_or_empty.
  - unfold size. by rewrite Hr.
Qed.

Lemma missing_path_answers_witness :
  stem fs_nothing data_tar_gz = Ok "data.tar.gz"
  ∧ size fs_nothing sfs_sample data_tar_gz = Raise PermissionError.
Proof.
  destruct (missing_path_answers fs_nothing sfs_sample (loaded globs_gz)
              data_tar_gz eq_refl eq_refl)
    as (_ & _ & _ & _ & _ & _ & _ & _ & Hs & Hz).
  split; [exact Hs|exact Hz].
Defined.

(** * Properties of [exts] and [stem] *)

Lemma slice_from_tail i s : ∃ base, s = base +:+ PyStr.slice_from i s.
Proof.
  revert i. induction s as [|a s IH]; intros [|i]; cbn [PyStr.slice_from];
    try by exists EmptyString.
  destruct (IH i) as [base Hb]. exists (String a base).
  by rewrite append_cons, <- Hb.
Qed.

Lemma lstrip_tail c s : ∃ d, s = d +:+ PyStr.lstrip c s.
Proof.
  induction s as [|a s [d Hd]]; [by exists EmptyString|].
  cbn [PyStr.lstrip]. destruct (Ascii.eqb a c); [|by exists EmptyString].
  exists (String a d). by rewrite append_cons, <- Hd.
Qed.

Lemma join_app a b : PyStr.join (a ++ b) = PyStr.join a +:+ PyStr.join b.
Proof.
  induction a as [|s a IH]; [done|].
  cbn [app]. by rewrite !join_cons, IH, append_assoc'.
Qed.

Lemma split_join sep s :
  s = hd EmptyString (PyStr.split sep s)
      +:+ PyStr.join (map (String sep) (tail (PyStr.split sep s))).
Proof.
  induction s as [|c s IH]; [done|]. cbn [PyStr.split].
  pose proof (split_length sep s) as Hlen.
  destruct (PyStr.split sep s) as [|f fs]; [done|]. cbn [hd tail] in IH.
  destruct (Ascii.eqb c sep) eqn:Hc.
  - apply Ascii.eqb_eq in Hc as ->. cbn [hd tail map].
    change (EmptyString +:+ ?x) with x.
    by rewrite join_cons, append_cons, <- IH.
  - cbn [hd tail]. by rewrite append_cons, <- IH.
Qed.

(** X12.  Whatever [exts] returns for a regular file is the tail of the
    file name: the name is some base followed by it. *)
Theorem exts_is_tail_of_name fs self e :
  exts fs self = Ok (Some e) →
  ∃ base, name self = base +:+ e.
Proof.
  unfold exts, plain_path_is_symlink_attr.
  destruct (path_is_file fs (resolve fs self)) as [[]|x]; cbn [bind]; try done.
  destruct (PyList.contains ".tar" (Pathlib.suffixes self)) eqn:Htar.
  - intros [= <-]. unfold Pathlib.suffixes in *.
    destruct (PyStr.endswith "." (name self)); [done|].
    destruct (lstrip_tail "." (name self)) as [d Hd].
    set (t := PyStr.lstrip "." (name self)) in *.
    pose proof (split_join "." t) as Hj.
    set (fs' := tail (PyStr.split "." t)) in *.
    assert (map (λ suffix, "." +:+ suffix) fs' = map (String ".") fs') as ->
      by done.
    unfold PyList.last_two.
    set (k := length (map (String ".") fs') - 2).
    rewrite <- (take_drop k (map (String ".") fs')), join_app in Hj.
    eexists. rewrite Hd, Hj, <- !append_assoc'. reflexivity.
  - intros [= <-]. unfold Pathlib.suffix.
    destruct (PyStr.rfind "." (name self)) as [i|].
    + destruct (_ && _); [apply slice_from_tail|].
      exists (name self). by rewrite append_nil_r.
    + exists (name self). by rewrite append_nil_r.
Qed.

Lemma exts_is_tail_of_name_witness :
  ∃ base, name data_tar_gz = base +:+ ".tar.gz".
Proof.
  apply (exts_is_tail_of_name fs_binary_files data_tar_gz ".tar.gz").
  vm_compute. reflexivity.
Defined.

Lemma replace_go_skip_all old new k s :
  String.length s ≤ k → PyStrMore.replace_go old new k s = EmptyString.
Proof.
  revert k. induction s as [|a s IH]; intros k Hk; [done|].
  cbn [String.length] in Hk. destruct k as [|k]; [lia|].
  cbn [PyStrMore.replace_go]. apply IH. lia.
Qed.

Lemma prefix_refl s : String.prefix s s = true.
Proof.
  induction s as [|a s IH]; [done|]. cbn [String.prefix].
  by destruct (ascii_dec a a).
Qed.

Lemma replace_go_final_match e base :
  e ≠ EmptyString →
  (∀ i, i < String.length base →
        String.prefix e (PyStr.slice_from i (base +:+ e)) = false) →
  PyStrMore.replace_go e EmptyString 0 (base +:+ e) = base.
Proof.
  intros He. induction base as [|a base IH]; intros Hno.
  - change (EmptyString +:+ e) with e.
    destruct e as [|c e]; [done|]. cbn [PyStrMore.replace_go].
    rewrite prefix_refl. change (EmptyString +:+ ?x) with x.
    apply replace_go_skip_all. cbn [String.length]. lia.
  - rewrite append_cons. cbn [PyStrMore.replace_go].
    pose proof (Hno 0) as H0. cbn [PyStr.slice_from String.length] in H0.
    rewrite append_cons in H0. rewrite H0 by lia.
    rewrite IH; [done|]. intros i Hi.
    specialize (Hno (S i)). rewrite append_cons in Hno.
    cbn [PyStr.slice_from String.length] in Hno. apply Hno. lia.
Qed.

(** X13.  [stem] removes the extension that [exts] returns and gives the
    base of the name when that extension does not occur anywhere earlier
    in the name. *)
Theorem stem_strips_extension fs self e base :
  exts fs self = Ok (Some e) →
  e ≠ EmptyString →
  name self = base +:+ e →
  (∀ i, i < String.length base →
        String.prefix e (PyStr.slice_from i (name self)) = false) →
  stem fs self = Ok base.
Proof.
  intros Hx He Hn Hno. unfold stem. cbv zeta.
  rewrite Hx, truthy_or_empty. cbn [bind].
  change (default EmptyString (Some e)) with e.
  destruct e as [|c e]; [done|]. cbn [PyStrMore.replace].
  rewrite Hn in Hno |- *. by rewrite replace_go_final_match.
Qed.

Lemma stem_strips_extension_witness :
  stem fs_binary_files data_tar_gz = Ok "data".
Proof.
  apply (stem_strips_extension fs_binary_files data_tar_gz ".tar.gz" "data").
  - vm_compute. reflexivity.
  - discriminate.
  - reflexivity.
  - intros i Hi. cbn in Hi.
    destruct i as [|[|[|[|i]]]]; try reflexivity. lia.
Defined.

(** Where the extension occurs earlier in the name, [stem] removes that
    occurrence too. *)
Example stem_removes_every_occurrence :
  stem fs_binary_files (mkPath "/tmp" "a.txt.txt") = Ok "a"
  ∧ stem fs_binary_files (mkPath "/tmp" "notes.gz.old.gz") = Ok "notes.old".
Proof. split; vm_compute; reflexivity. Qed.

(** * Properties of [type] and [permissions] *)

Lemma land_pow2 m k :
  N.land m (2 ^ k) = if N.testbit m k then (2 ^ k)%N else 0%N.
Proof.
  apply N.bits_inj. intros i. rewrite N.land_spec, N.pow2_bits_eqb.
  destruct (N.eqb_spec k i) as [<-|Hne].
  - destruct (N.testbit m k) eqn:Hk; [by rewrite N.pow2_bits_true|].
    by rewrite N.bits_0.
  - rewrite andb_false_r. destruct (N.testbit m k); [|by rewrite N.bits_0].
    by rewrite N.pow2_bits_false.
Qed.

Lemma land_fmt_mask m b15 b14 b13 b12 :
  N.land m (fmt_mask b15 b14 b13 b12)
  = fmt_mask (b15 && N.testbit m 15) (b14 && N.testbit m 14)
             (b13 && N.testbit m 13) (b12 && N.testbit m 12).
Proof.
  unfold fmt_mask. rewrite !N.land_lor_distr_r.
  destruct b15, b14, b13, b12; cbn [andb];
    rewrite ?land_pow2, ?N.land_0_r; reflexivity.
Qed.

(** X14.  [type] looks only at bits 15 to 12 of [st_mode], in that order:
    it returns [file] when bit 15 is set, else [dir] when bit 14 is set,
    else [link] when bit 13 is set, else [fifo] when bit 12 is set, else
    [unknown]; it never returns [socket], [char], [block] or [special]. *)
Theorem type_by_format_bits sfs self st :
  stat sfs self = Ok st →
  type sfs self
  = Ok (if N.testbit (st_mode st) 15 then "file"
        else if N.testbit (st_mode st) 14 then "dir"
        else if N.testbit (st_mode st) 13 then "link"
        else if N.testbit (st_mode st) 12 then "fifo"
        else "unknown").
Proof.
  intros Hs. unfold type, _types. cbn [first_type]. rewrite Hs. cbn [bind].
  change 32768%N with (fmt_mask true false false false).
  change 16384%N with (fmt_mask false true false false).
  change 40960%N with (fmt_mask true false true false).
  change 49152%N with (fmt_mask true true false false).
  change 8192%N with (fmt_mask false false true false).
  change 24576%N with (fmt_mask false true true false).
  change 4096%N with (fmt_mask false false false true).
  change 61440%N with (fmt_mask true true true true).
  rewrite !land_fmt_mask.
  destruct (N.testbit (st_mode st) 15), (N.testbit (st_mode st) 14),
    (N.testbit (st_mode st) 13), (N.testbit (st_mode st) 12); reflexivity.
Qed.

Lemma type_by_format_bits_witness :
  type (sfs_mode 33188) data_tar_gz = Ok "file"
  ∧ type (sfs_mode 16877) data_tar_gz = Ok "dir".
Proof.
  split.
  - apply (type_by_format_bits (sfs_mode 33188) data_tar_gz
             (mkStatResult 33188 0)). reflexivity.
  - apply (type_by_format_bits (sfs_mode 16877) data_tar_gz
             (mkStatResult 16877 0)). reflexivity.
Defined.

Lemma land_within_format m v :
  N.land 61440 v = v → N.land m v = N.land (N.land m 61440) v.
Proof. intros H. by rewrite <- N.land_assoc, H. Qed.

(** X15.  What [type] answers for each kind of file that [stat] can
    report, by the format field [st_mode & 0o170000]: a regular file and a
    socket are both [file]; a directory and a block device are [dir]; a
    character device is [link]; a FIFO is [fifo]; a mode without format
    bits is [unknown]. *)
Theorem type_of_file_kinds sfs self st :
  stat sfs self = Ok st →
  (N.land (st_mode st) 61440 = 32768%N → type sfs self = Ok "file")
  ∧ (N.land (st_mode st) 61440 = 49152%N → type sfs self = Ok "file")
  ∧ (N.land (st_mode st) 61440 = 16384%N → type sfs self = Ok "dir")
  ∧ (N.land (st_mode st) 61440 = 24576%N → type sfs self = Ok "dir")
  ∧ (N.land (st_mode st) 61440 = 8192%N → type sfs self = Ok "link")
  ∧ (N.land (st_mode st) 61440 = 4096%N → type sfs self = Ok "fifo")
  ∧ (N.land (st_mode st) 61440 = 0%N → type sfs self = Ok "unknown").
Proof.
  intros Hs. unfold type, _types. cbn [first_type]. rewrite Hs. cbn [bind].
  rewrite (land_within_format _ 32768), (land_within_format _ 16384),
    (land_within_format _ 40960), (land_within_format _ 49152),
    (land_within_format _ 8192), (land_within_format _ 24576),
    (land_within_format _ 4096), (land_within_format _ 61440) by reflexivity.
  split_and!; intros ->; reflexivity.
Qed.

Lemma type_of_file_kinds_witness :
  type (sfs_mode 49645) data_tar_gz = Ok "file"
  ∧ type (sfs_mode 25008) data_tar_gz = Ok "dir"
  ∧ type (sfs_mode 8592) data_tar_gz = Ok "link".
Proof.
  split_and!.
  - apply (type_of_file_kinds (sfs_mode 49645) data_tar_gz
             (mkStatResult 49645 0) eq_refl). reflexivity.
  - apply (type_of_file_kinds (sfs_mode 25008) data_tar_gz
             (mkStatResult 25008 0) eq_refl). reflexivity.
  - apply (type_of_file_kinds (sfs_mode 8592) data_tar_gz
             (mkStatResult 8592 0) eq_refl). reflexivity.
Defined.

Lemma oct_digits_small n : (n < 8)%N → PyInt.oct_digits n = PyInt.digit n.
Proof.
  intros Hn. destruct n as [|p]; [done|].
  destruct p as [[[q|q|]|[q|q|]|]|[[q|q|]|[q|q|]|]|]; try lia; reflexivity.
Qed.

Lemma oct_digits_step n :
  (8 <= n)%N →
  PyInt.oct_digits n = PyInt.oct_digits (n / 8) +:+ PyInt.digit (n mod 8).
Proof.
  intros Hn. destruct n as [|p]; [lia|].
  destruct p as [[[q|q|]|[q|q|]|]|[[q|q|]|[q|q|]|]|]; try lia.
  - replace (N.pos q~1~1~1 / 8)%N with (N.pos q)
      by (apply (N.div_unique _ 8 _ 7); lia).
    replace (N.pos q~1~1~1 mod 8)%N with 7%N
      by (apply (N.mod_unique _ 8 (N.pos q)); lia).
    reflexivity.
  - replace (N.pos q~0~1~1 / 8)%N with (N.pos q)
      by (apply (N.div_unique _ 8 _ 3); lia).
    replace (N.pos q~0~1~1 mod 8)%N with 3%N
      by (apply (N.mod_unique _ 8 (N.pos q)); lia).
    reflexivity.
  - replace (N.pos q~1~0~1 / 8)%N with (N.pos q)
      by (apply (N.div_unique _ 8 _ 5); lia).
    replace (N.pos q~1~0~1 mod 8)%N with 5%N
      by (apply (N.mod_unique _ 8 (N.pos q)); lia).
    reflexivity.
  - replace (N.pos q~0~0~1 / 8)%N with (N.pos q)
      by (apply (N.div_unique _ 8 _ 1); lia).
    replace (N.pos q~0~0~1 mod 8)%N with 1%N
      by (apply (N.mod_unique _ 8 (N.pos q)); lia).
    reflexivity.
  - replace (N.pos q~1~1~0 / 8)%N with (N.pos q)
      by (apply (N.div_unique _ 8 _ 6); lia).
    replace (N.pos q~1~1~0 mod 8)%N with 6%N
      by (apply (N.mod_unique _ 8 (N.pos q)); lia).
    reflexivity.
  - replace (N.pos q~0~1~0 / 8)%N with (N.pos q)
      by (apply (N.div_unique _ 8 _ 2); lia).
    replace (N.pos q~0~1~0 mod 8)%N with 2%N
      by (apply (N.mod_unique _ 8 (N.pos q)); lia).
    reflexivity.
  - replace (N.pos q~1~0~0 / 8)%N with (N.pos q)
      by (apply (N.div_unique _ 8 _ 4); lia).
    replace (N.pos q~1~0~0 mod 8)%N with 4%N
      by (apply (N.mod_unique _ 8 (N.pos q)); lia).
    reflexivity.
  - replace (N.pos q~0~0~0 / 8)%N with (N.pos q)
      by (apply (N.div_unique _ 8 _ 0); lia).
    replace (N.pos q~0~0~0 mod 8)%N with 0%N
      by (apply (N.mod_unique _ 8 (N.pos q)); lia).
    reflexivity.
Qed.

Lemma oct_digits_last n :
  ∃ pre, PyInt.oct_digits n = pre +:+ PyInt.digit (n mod 8).
Proof.
  destruct (N.lt_ge_cases n 8) as [Hlt|Hge].
  - exists EmptyString. rewrite N.mod_small by done. by apply oct_digits_small.
  - eexists. by apply oct_digits_step.
Qed.

Lemma length_append (s t : string) :
  String.length (s +:+ t) = String.length s + String.length t.
Proof.
  induction s as [|a s IH]; [done|].
  rewrite append_cons. cbn [String.length]. by rewrite IH.
Qed.

Lemma slice_from_append (s t : string) :
  PyStr.slice_from (String.length s) (s +:+ t) = t.
Proof.
  induction s as [|a s IH]; [by destruct t|].
  rewrite append_cons. by cbn [String.length PyStr.slice_from].
Qed.

Lemma last_three_append (s t : string) :
  String.length t = 3 → PyStrMore.last_three (s +:+ t) = t.
Proof.
  intros Ht. unfold PyStrMore.last_three. rewrite length_append, Ht.
  replace (String.length s + 3 - 3) with (String.length s) by lia.
  apply slice_from_append.
Qed.

Lemma int_go_digit acc d s :
  (d < 10)%N →
  PyInt.int_go acc (String (ascii_of_N (48 + d)) s)
  = PyInt.int_go (10 * acc + d) s.
Proof.
  intros Hd. cbn [PyInt.int_go]. cbv zeta.
  rewrite N_ascii_embedding by lia.
  replace (48 <=? 48 + d)%N with true by (symmetry; apply N.leb_le; lia).
  replace (48 + d <=? 57)%N with true by (symmetry; apply N.leb_le; lia).
  cbn [andb]. by replace (48 + d - 48)%N with d by lia.
Qed.

Lemma int_three_digits a b c :
  (a < 10)%N → (b < 10)%N → (c < 10)%N →
  PyInt.int (PyInt.digit a +:+ PyInt.digit b +:+ PyInt.digit c)
  = Ok (100 * a + 10 * b + c)%N.
Proof.
  intros Ha Hb Hc. unfold PyInt.digit.
  repeat (rewrite append_cons; change (EmptyString +:+ ?t) with t).
  cbn [PyInt.int]. rewrite !int_go_digit by done. cbn [PyInt.int_go].
  f_equal. lia.
Qed.

Lemma oct_last_three n :
  (64 <= n)%N →
  PyStrMore.last_three (PyInt.oct n)
  = PyInt.digit ((n / 64) mod 8) +:+ PyInt.digit ((n / 8) mod 8)
    +:+ PyInt.digit (n mod 8).
Proof.
  intros Hn. unfold PyInt.oct.
  rewrite (oct_digits_step n) by lia.
  assert (8 <= n / 8)%N as H8.
  { apply (N.div_le_lower_bound n 8 8); lia. }
  rewrite (oct_digits_step (n / 8)) by done.
  rewrite N.Div0.div_div. change (8 * 8)%N with 64%N.
  destruct (oct_digits_last (n / 64)) as [pre ->].
  rewrite !append_assoc', <- (append_assoc' "0o" pre).
  by apply last_three_append.
Qed.

(** X16.  For a mode of at least [0o100], [permissions()] returns the last
    three octal digits of [st_mode] as a string, and
    [permissions(octal=True)] returns those three digits read as a decimal
    number: [0o100644] gives [644], not [0o644]. *)
Theorem permissions_of_mode sfs self st :
  stat sfs self = Ok st →
  (64 <= st_mode st)%N →
  permissions sfs false self
  = Ok (PermStr (PyInt.digit ((st_mode st / 64) mod 8)
                 +:+ PyInt.digit ((st_mode st / 8) mod 8)
                 +:+ PyInt.digit (st_mode st mod 8)))
  ∧ permissions sfs true self
    = Ok (PermInt (100 * ((st_mode st / 64) mod 8)
                   + 10 * ((st_mode st / 8) mod 8)
                   + st_mode st mod 8)).
Proof.
  intros Hs Hm. unfold permissions. rewrite Hs. cbn [bind]. cbv zeta.
  rewrite oct_last_three by done. split; [done|].
  rewrite int_three_digits; [done| | |];
    (eapply N.lt_trans; [apply N.mod_lt|]; lia).
Qed.

Lemma permissions_of_mode_witness :
  permissions (sfs_mode 33188) false data_tar_gz = Ok (PermStr "644")
  ∧ permissions (sfs_mode 33188) true data_tar_gz = Ok (PermInt 644).
Proof.
  apply (permissions_of_mode (sfs_mode 33188) data_tar_gz
           (mkStatResult 33188 0)).
  - reflexivity.
  - vm_compute. discriminate.
Defined.

(** * Properties of [size] and [is_empty] *)



(** X19.  [size] of a regular file is its [st_size] when the file is
    readable and [PermissionError] when it is not; [is_empty] of a regular
    file compares that size with 0, so on an unreadable file it raises
    [PermissionError] too. *)
Theorem size_and_is_empty_of_file fs sfs self r :
  is_readable fs self = Ok r →
  path_is_file fs self = Ok true →
  (r = true → ∀ st, stat sfs self = Ok st →
     size fs sfs self = Ok (st_size st)
     ∧ is_empty fs sfs self = Ok (Some (N.eqb (st_size st) 0)))
  ∧ (r = false →
     size fs sfs self = Raise PermissionError
     ∧ is_empty fs sfs self = Raise PermissionError).
Proof.
  intros Hr Hf. split.
  - intros -> st Hs.
    assert (size fs sfs self = Ok (st_size st)) as Hz.
    { unfold size. by rewrite Hr, Hf, Hs. }
    split; [done|]. unfold is_empty. by rewrite Hf, Hz.
  - intros ->.
    assert (size fs sfs self = Raise PermissionError) as Hz.
    { unfold size. by rewrite Hr. }
    split; [done|]. unfold is_empty. by rewrite Hf, Hz.
Qed.

Lemma size_and_is_empty_of_file_witness :
  size fs_access_denied sfs_sample secret_gz = Raise PermissionError
  ∧ is_empty fs_access_denied sfs_sample secret_gz = Raise PermissionError.
Proof.
  apply (size_and_is_empty_of_file fs_access_denied sfs_sample secret_gz false);
    reflexivity.
Defined.

(** X20.  [is_empty] of a directory does not look at [size]: it is [True]
    exactly when [iterdir] lists nothing. *)
Theorem is_empty_of_directory fs sfs self entries :
  path_is_file fs self = Ok false →
  path_is_dir fs self = Ok true →
  iterdir sfs self = Ok entries →
  is_empty fs sfs self = Ok (Some (bool_decide (entries = []))).
Proof.
  intros Hf Hd Hi. unfold is_empty. rewrite Hf. cbn [bind].
  rewrite Hd. cbn [bind]. rewrite Hi. cbn [bind]. by destruct entries.
Qed.

Lemma is_empty_of_directory_witness :
  is_empty fs_directories sfs_sample (mkPath "/" "tmp") = Ok (Some false).
Proof.
  apply (is_empty_of_directory fs_directories sfs_sample (mkPath "/" "tmp")
           [mkPath "tmp" "a.txt"; mkPath "tmp" "b.txt"]);
    reflexivity.
Defined.

(** * The word counters *)

(** X21.  [num_words] and [num_chars] never return: [wc] is [num_words]
    itself, so each call makes another until the frames run out, and both
    end in [RecursionError] for every path and every stack depth. *)
Theorem num_words_never_returns frames self :
  num_words frames self = RecursionError
  ∧ num_chars frames self = RecursionError.
Proof.
  assert (∀ n, num_words n self = RecursionError) as H.
  { induction n as [|n IH]; [done|]. cbn [num_words]. by rewrite IH. }
  split; [apply H|]. destruct frames as [|n]; [done|].
  cbn [num_chars]. unfold wc. by rewrite H.
Qed.

(** * More on what the loader and [extension] read *)

Lemma split_fields_no_sep sep s :
  Forall (λ f, count_char sep f = 0) (PyStr.split sep s).
Proof.
  induction s as [|c s IH]; [by repeat constructor|]. cbn [PyStr.split].
  destruct (Ascii.eqb c sep) eqn:Hc; [by constructor|].
  destruct (PyStr.split sep s) as [|f fs]; inversion IH; subst;
    repeat constructor; cbn [count_char]; rewrite ?Hc; done.
Qed.

Lemma suffixes_single_dot self :
  Forall (λ s, ∃ t, s = String "." t ∧ count_char "." t = 0)
         (Pathlib.suffixes self).
Proof.
  unfold Pathlib.suffixes.
  destruct (PyStr.endswith "." (name self)); [constructor|].
  pose proof (split_fields_no_sep "." (PyStr.lstrip "." (name self))) as H.
  destruct (PyStr.split "." (PyStr.lstrip "." (name self))) as [|f fs];
    [constructor|].
  inversion H as [|? ? _ Hfs]; subst. clear H. cbn [tail].
  induction Hfs as [|t fs Ht _ IH]; cbn [map]; [constructor|].
  constructor; [|done]. exists t. split; [reflexivity|done].
Qed.

(** X22.  [extension] reads only the keys made of one dot followed by
    text without a dot: two states of [_ext2mime_map] that agree on which
    of those are keys give the same extension for every path.  A compound
    key such as [.tar.gz], or a key without a dot such as [makefile], has
    no effect on it. *)
Theorem extension_reads_single_dot_keys cls cls' self :
  (∀ t, count_char "." t = 0 →
        registered cls (String "." t) = registered cls' (String "." t)) →
  extension cls self = extension cls' self.
Proof.
  intros H. rewrite !extension_filter. f_equal.
  apply List.filter_ext_in. intros s Hs.
  pose proof (suffixes_single_dot self) as Hd.
  rewrite Forall_forall in Hd.
  destruct (Hd s) as (t & -> & Ht); [by apply list_elem_of_In|].
  by apply H.
Qed.

Lemma extension_reads_single_dot_keys_witness :
  extension (loaded globs_gz) data_tar_gz
  = extension (loaded ["application/gzip:*.gz"]) data_tar_gz.
Proof.
  apply (extension_reads_single_dot_keys
           (loaded globs_gz) (loaded ["application/gzip:*.gz"]) data_tar_gz).
  intros t Ht. unfold registered, PyDict.contains.
  assert (_ext2mime_map (loaded globs_gz)
          = <[".tar.gz" := ["application/x-compressed-tar"]]>
              (_ext2mime_map (loaded ["application/gzip:*.gz"]))) as ->
    by (vm_compute; reflexivity).
  rewrite lookup_insert_ne; [done|].
  intros [= <-]. vm_compute in Ht. discriminate.
Defined.

Lemma fold_append_new_first_appearances l :
  fold_left append_new l [] = first_appearances l.
Proof.
  unfold first_appearances.
  induction l as [|x l IH] using rev_ind; [done|].
  rewrite fold_left_app, IH, rev_app_distr. cbn [fold_left rev app remove_dups].
  unfold append_new, PyList.contains.
  destruct (decide_rel elem_of x (rev l)) as [Hin|Hnin].
  - rewrite bool_decide_eq_true_2; [done|].
    apply list_elem_of_In, (proj1 (in_rev _ _)), list_elem_of_In.
    by apply elem_of_remove_dups.
  - rewrite bool_decide_eq_false_2; [reflexivity|].
    intros Hx. apply Hnin.
    apply elem_of_remove_dups, list_elem_of_In, (proj2 (in_rev _ _)).
    by apply list_elem_of_In.
Qed.

Lemma add_ext2mime_default mime ext e2m ext' :
  default [] (add_ext2mime mime ext e2m !! ext')
  = if decide (ext = ext') then append_new (default [] (e2m !! ext')) mime
    else default [] (e2m !! ext').
Proof.
  unfold add_ext2mime, append_new.
  destruct (decide (ext = ext')) as [<-|Hne].
  - destruct (e2m !! ext) as [l|] eqn:Hl; simpl.
    + destruct (PyList.contains mime l); [by rewrite Hl|].
      by rewrite lookup_insert_eq.
    + by rewrite lookup_insert_eq.
  - destruct (e2m !! ext) as [l|] eqn:Hl.
    + destruct (PyList.contains mime l); [done|].
      by rewrite lookup_insert_ne.
    + by rewrite lookup_insert_ne.
Qed.

Lemma load_lines_ext2mime lines cls cls' ext :
  load_lines lines cls = (Ok tt, cls') →
  default [] (_ext2mime_map cls' !! ext)
  = fold_left append_new (mimes_of ext lines)
              (default [] (_ext2mime_map cls !! ext)).
Proof.
  revert cls. induction lines as [|ln rest IH]; intros cls H.
  - by injection H as <-.
  - cbn [load_lines mimes_of] in *. rewrite load_line_unfold in H.
    destruct (line_entry ln) as [| |mime ext0]; [by apply IH|done|].
    rewrite (IH _ H). cbn [_ext2mime_map]. rewrite add_ext2mime_default.
    by destruct (decide (ext0 = ext)).
Qed.

(** X23.  After a load of a file into the empty tables, the list of an
    extension in [_ext2mime_map] holds the MIME types that the lines of
    the file give to that extension, each once, in the order in which
    they first appear in the file. *)
Theorem first_load_orders_mimes lines cls ext :
  _load (Some lines) class_body = (Ok cls, cls) →
  default [] (_ext2mime_map cls !! ext) = first_appearances (mimes_of ext lines).
Proof.
  intros H. apply _load_some in H.
  rewrite (load_lines_ext2mime _ _ _ ext H). cbn [class_body _ext2mime_map].
  rewrite lookup_empty. apply fold_append_new_first_appearances.
Qed.

Lemma first_load_orders_mimes_witness :
  default [] (_ext2mime_map (loaded (globs_ogg ++ globs_ogg)) !! ".ogg")
  = first_appearances (mimes_of ".ogg" (globs_ogg ++ globs_ogg)).
Proof.
  apply (first_load_orders_mimes (globs_ogg ++ globs_ogg)
           (loaded (globs_ogg ++ globs_ogg)) ".ogg").
  vm_compute. reflexivity.
Defined.

(** X24.  While the globs file holds a line that is neither blank nor a
    comment and does not have exactly one colon, no [PathExt] can be
    constructed: [__new__] raises [ValueError] for every path, from any
    state of the tables. *)
Theorem new_raises_on_malformed_globs lines ln path cls :
  ln ∈ lines →
  PyStr.truthy ln = true →
  PyStr.startswith "#" ln = false →
  count_char ":" ln ≠ 1 →
  fst (__new__ (Some lines) path cls) = Raise ValueError.
Proof.
  intros Hin Ht Hc Hn.
  assert (line_entry ln = Malformed) as Hm by by apply line_entry_malformed.
  assert (fst (load_lines lines cls) = Raise ValueError) as Hr.
  { clear Ht Hc Hn. revert cls.
    induction lines as [|ln' rest IH]; intros cls; [by inversion Hin|].
    cbn [load_lines]. rewrite load_line_unfold.
    apply elem_of_cons in Hin as [<-|Hin]; [by rewrite Hm|].
    destruct (line_entry ln') as [| |mime ext]; [by apply IH|done|by apply IH]. }
  unfold __new__. cbn [_load].
  destruct (load_lines lines cls) as [[[]|e] c]; cbn [fst] in *; congruence.
Qed.

Lemma new_raises_on_malformed_globs_witness :
  fst (__new__ (Some ["text/plain:*.txt"; "50:text/plain:*.txt"])
               data_tar_gz class_body)
  = Raise ValueError.
Proof.
  apply (new_raises_on_malformed_globs
           ["text/plain:*.txt"; "50:text/plain:*.txt"] "50:text/plain:*.txt").
  - apply elem_of_cons. right. apply elem_of_cons. by left.
  - reflexivity.
  - reflexivity.
  - vm_compute. lia.
Defined.
